(** * dm-verity device setup and removal (src/dm.c)

    A shallow embedding of [setup_dm_verity] and [remove_dm_verity]: the two
    functions drive the kernel's device-mapper control node through a fixed
    sequence of system calls.  The kernel is an arbitrary transition function
    ([host_step]); the functions run in a small state monad whose state holds
    the C locals, the device structure, the caller's error location, and the
    trace of system calls and log messages produced so far.

    C strings ([gchar *], and the [char] arrays read as strings) are
    represented by their contents, the characters before the terminating
    NUL.  Nullable pointers are [option]s.  Unsigned 64-bit quantities that
    are only divided and compared are in [N]; file descriptors, return
    values and [errno] are in [Z]. *)

From Stdlib Require Import ZArith NArith List String Ascii Bool Lia.
From Stdlib Require Import DecimalString DecimalN.
Import ListNotations.
Local Open Scope string_scope.

(** ** GLib and libc helpers *)

Definition gboolean := bool.
Definition TRUE : gboolean := true.
Definition FALSE : gboolean := false.

(** Decimal rendering used by the [%u] and [%lu] conversions. *)
Definition decimal (n : N) : string := NilZero.string_of_uint (N.to_uint n).

(** The first [n] characters of [s]. *)
Fixpoint string_take (n : nat) (s : string) : string :=
  match n, s with
  | O, _ => EmptyString
  | S _, EmptyString => EmptyString
  | S n', String c s' => String c (string_take n' s')
  end.

(** [g_strlcpy (dest, src, dest_size)]: [dest] receives at most
    [dest_size - 1] characters of [src], then a NUL. *)
Definition g_strlcpy (src : string) (dest_size : nat) : string :=
  string_take (dest_size - 1) src.

(** [g_strcmp0 (a, b)] on two non-NULL strings: 0 exactly when equal. *)
Definition g_strcmp0 (a b : string) : Z :=
  match String.compare a b with
  | Eq => 0
  | Lt => -1
  | Gt => 1
  end.

(** Arguments of the printf family, as far as dm.c uses them. *)
Inductive fmt_arg : Type :=
| ArgStr (s : string)        (* %s *)
| ArgUInt (n : N)            (* %u *)
| ArgUInt64 (n : N).         (* %lu, G_GUINT64_FORMAT on LP64 *)

(** Expansion of a format string.  Only the conversions that occur in dm.c
    are interpreted; a conversion without a matching argument (undefined in
    C) expands to nothing. *)
Fixpoint vprintf (fmt : string) (args : list fmt_arg) : string :=
  match fmt with
  | EmptyString => EmptyString
  | String "%" (String "s" rest) =>
      match args with
      | ArgStr s :: args' => s ++ vprintf rest args'
      | _ :: args' => vprintf rest args'
      | [] => vprintf rest []
      end
  | String "%" (String "u" rest) =>
      match args with
      | ArgUInt n :: args' => decimal n ++ vprintf rest args'
      | _ :: args' => vprintf rest args'
      | [] => vprintf rest []
      end
  | String "%" (String "l" (String "u" rest)) =>
      match args with
      | ArgUInt64 n :: args' => decimal n ++ vprintf rest args'
      | _ :: args' => vprintf rest args'
      | [] => vprintf rest []
      end
  | String c rest => String c (vprintf rest args)
  end.

Definition G_GUINT64_FORMAT : string := "lu".

(** [g_snprintf (buf, n, fmt, ...)]: the buffer receives at most [n - 1]
    characters of the expansion; the return value is the length the whole
    expansion has, without the NUL (taken to fit a [gint]). *)
Definition g_snprintf (n : nat) (fmt : string) (args : list fmt_arg)
  : string * Z :=
  let full := vprintf fmt args in
  (string_take (n - 1) full, Z.of_nat (String.length full)).

Definition g_strdup_printf (fmt : string) (args : list fmt_arg) : string :=
  vprintf fmt args.

(** [minor ()] of sys/sysmacros.h (glibc's [gnu_dev_minor]). *)
Definition minor (dev : Z) : Z :=
  Z.lor (Z.land dev 255) (Z.shiftr (Z.land dev 17592184995840) 12).

(** ** Errors *)

Inductive GQuark : Type := G_FILE_ERROR.
Inductive GFileError : Type := G_FILE_ERROR_FAILED.

Record GError : Type := mkGError {
  domain : GQuark;
  code : GFileError;
  message : string
}.

(** A [GError **]: [None] is a NULL location, [Some None] a location that
    holds no error yet, [Some (Some e)] a location already holding [e]. *)
Definition error_loc : Type := option (option GError).

(** The guard [error == NULL || *error == NULL]. *)
Definition error_loc_clear (error : error_loc) : bool :=
  match error with
  | Some (Some _) => false
  | _ => true
  end.

(** The effect of [g_set_error] on the location: a NULL location is left
    alone, an empty one receives the error, a full one is not overwritten. *)
Definition store_error (error : error_loc) (e : GError) : error_loc :=
  match error with
  | None => None
  | Some None => Some (Some e)
  | Some (Some e0) => Some (Some e0)
  end.

(** ** The device structure *)

(** Modelled from the spec: the declaration of [RaucDMVerity] lives in dm.h,
    which is not among the sources; the fields are the ones dm.c reads and
    writes ([identity] is [uuid], [lower_device] is [lower_dev],
    [upper_device] is [upper_dev]); [data_size] is printed with
    [G_GUINT64_FORMAT], hence a [guint64]. *)
Record RaucDMVerity : Type := mkRaucDMVerity {
  uuid : option string;
  lower_dev : option string;
  upper_dev : option string;
  data_size : N;
  root_digest : option string;
  salt : option string
}.

Definition set_upper_dev (v : option string) (d : RaucDMVerity) : RaucDMVerity :=
  mkRaucDMVerity (uuid d) (lower_dev d) v (data_size d) (root_digest d) (salt d).

Definition is_null {A : Type} (p : option A) : bool :=
  match p with
  | None => true
  | Some _ => false
  end.

(** Reading a string pointer that a guard has already shown non-NULL. *)
Definition str (p : option string) : string :=
  match p with
  | Some s => s
  | None => EmptyString
  end.

(** ** The device-mapper ioctl interface (linux/dm-ioctl.h) *)

Definition DM_VERSION_MAJOR : Z := 4.
Definition DM_READONLY_FLAG : Z := Z.shiftl 1 0.
Definition DM_DEFERRED_REMOVE : Z := Z.shiftl 1 17.
Definition DM_NAME_LEN : nat := 128.
Definition DM_UUID_LEN : nat := 129.
Definition DM_MAX_TYPE_NAME : nat := 16.
Definition sizeof_dm_ioctl : Z := 312.
Definition sizeof_dm_target_spec : Z := 40.
Definition sizeof_params : nat := 1024.

Inductive dm_cmd : Type :=
| DM_DEV_CREATE
| DM_TABLE_LOAD
| DM_DEV_SUSPEND
| DM_TABLE_STATUS
| DM_DEV_REMOVE.

Definition dm_cmd_eqb (a b : dm_cmd) : bool :=
  match a, b with
  | DM_DEV_CREATE, DM_DEV_CREATE
  | DM_TABLE_LOAD, DM_TABLE_LOAD
  | DM_DEV_SUSPEND, DM_DEV_SUSPEND
  | DM_TABLE_STATUS, DM_TABLE_STATUS
  | DM_DEV_REMOVE, DM_DEV_REMOVE => true
  | _, _ => false
  end.

(** [struct dm_ioctl]. *)
Record dm_ioctl : Type := mk_dm_ioctl {
  version : Z * Z * Z;
  hdr_data_size : Z;
  data_start : Z;
  target_count : Z;
  open_count : Z;
  flags : Z;
  event_nr : Z;
  dev : Z;
  name : string;
  hdr_uuid : string
}.

Definition dm_ioctl_zero : dm_ioctl :=
  mk_dm_ioctl (0, 0, 0)%Z 0 0 0 0 0 0 0 EmptyString EmptyString.

Definition set_name (v : string) (h : dm_ioctl) : dm_ioctl :=
  mk_dm_ioctl (version h) (hdr_data_size h) (data_start h) (target_count h)
    (open_count h) (flags h) (event_nr h) (dev h) v (hdr_uuid h).

Definition set_target_count (v : Z) (h : dm_ioctl) : dm_ioctl :=
  mk_dm_ioctl (version h) (hdr_data_size h) (data_start h) v
    (open_count h) (flags h) (event_nr h) (dev h) (name h) (hdr_uuid h).

(** [struct dm_target_spec]. *)
Record dm_target_spec : Type := mk_dm_target_spec {
  sector_start : N;
  length : N;
  status : Z;
  next : Z;
  target_type : string
}.

Definition dm_target_spec_zero : dm_target_spec :=
  mk_dm_target_spec 0 0 0 0 EmptyString.

(** The local [setup] of [setup_dm_verity]: header, one target, and the
    parameter buffer, laid out without padding. *)
Record setup_t : Type := mk_setup {
  header : dm_ioctl;
  target_spec : dm_target_spec;
  params : string
}.

Definition setup_zero : setup_t :=
  mk_setup dm_ioctl_zero dm_target_spec_zero EmptyString.

Definition sizeof_setup : Z :=
  sizeof_dm_ioctl + sizeof_dm_target_spec + Z.of_nat sizeof_params.

(** [dm_set_header]: the header is cleared, then version, sizes, flags and
    uuid are filled in. *)
Definition dm_set_header (size : Z) (fl : Z) (u : string) : dm_ioctl :=
  mk_dm_ioctl (DM_VERSION_MAJOR, 0, 0)%Z size sizeof_dm_ioctl 0 0 fl 0 0
    EmptyString (g_strlcpy u DM_UUID_LEN).

(** ** System calls, the host, and the trace *)

Definition O_RDONLY : Z := 0.
Definition O_RDWR : Z := 2.
Definition O_CLOEXEC : Z := 524288.

Inductive syscall : Type :=
| SysOpen (path : string) (oflags : Z)
| SysIoctl (fd : Z) (cmd : dm_cmd) (hdr : dm_ioctl)
    (payload : option (dm_target_spec * string))
| SysRead (fd : Z) (count : Z)
| SysClose (fd : Z).

(** What the host hands back: the return value, the [errno] it leaves, and
    (for an ioctl) the contents of the argument structure after the call. *)
Record sysret : Type := mk_sysret {
  rv : Z;
  err : Z;
  arg_out : setup_t
}.

Inductive log_level : Type := LogCritical | LogMessage.

Inductive event : Type :=
| EvSys (c : syscall) (r : sysret)
| EvLog (lvl : log_level) (msg : string).

(** The request of an ioctl event, by command. *)
Definition is_ioctl (cmd : dm_cmd) (e : event) : bool :=
  match e with
  | EvSys (SysIoctl _ c _ _) _ => dm_cmd_eqb c cmd
  | _ => false
  end.

Definition is_syscall (e : event) : bool :=
  match e with
  | EvSys _ _ => true
  | EvLog _ _ => false
  end.

Definition is_open (e : event) : bool :=
  match e with
  | EvSys (SysOpen _ _) _ => true
  | _ => false
  end.

Definition count_events (p : event -> bool) (t : list event) : nat :=
  List.length (filter p t).

Inductive label : Type := out_remove_dm | out.

Section Model.

(** The host: any state type with any transition function. *)
Variable Host : Type.
Variable host_step : Host -> syscall -> sysret * Host.

(** [g_strerror]: the text of an [errno] value. *)
Variable g_strerror : Z -> string.

(** The C locals of either function, the pointee of [dm_verity], the
    caller's error location, [errno], and the world. *)
Record state : Type := mkState {
  res : gboolean;
  dmfd : Z;
  checkfd : Z;
  setup : setup_t;
  dm_verity : RaucDMVerity;
  error : error_loc;
  errno : Z;
  host : Host;
  trace : list event
}.

Definition set_res (v : gboolean) (s : state) : state :=
  mkState v (dmfd s) (checkfd s) (setup s) (dm_verity s) (error s)
    (errno s) (host s) (trace s).
Definition set_dmfd (v : Z) (s : state) : state :=
  mkState (res s) v (checkfd s) (setup s) (dm_verity s) (error s)
    (errno s) (host s) (trace s).
Definition set_checkfd (v : Z) (s : state) : state :=
  mkState (res s) (dmfd s) v (setup s) (dm_verity s) (error s)
    (errno s) (host s) (trace s).
Definition set_setup (v : setup_t) (s : state) : state :=
  mkState (res s) (dmfd s) (checkfd s) v (dm_verity s) (error s)
    (errno s) (host s) (trace s).
Definition set_dm_verity (v : RaucDMVerity) (s : state) : state :=
  mkState (res s) (dmfd s) (checkfd s) (setup s) v (error s)
    (errno s) (host s) (trace s).
Definition set_error (v : error_loc) (s : state) : state :=
  mkState (res s) (dmfd s) (checkfd s) (setup s) (dm_verity s) v
    (errno s) (host s) (trace s).
Definition after_syscall (c : syscall) (r : sysret) (h : Host) (s : state)
  : state :=
  mkState (res s) (dmfd s) (checkfd s) (setup s) (dm_verity s) (error s)
    (err r) h (trace s ++ [EvSys c r]).
Definition add_log (lvl : log_level) (msg : string) (s : state) : state :=
  mkState (res s) (dmfd s) (checkfd s) (setup s) (dm_verity s) (error s)
    (errno s) (host s) (trace s ++ [EvLog lvl msg]).

(** *** The monad: state, [goto], and [return] *)

Inductive outcome (A : Type) : Type :=
| Next (a : A)
| Goto (l : label)
| Return (v : gboolean).
Arguments Next {A} a.
Arguments Goto {A} l.
Arguments Return {A} v.

Definition M (A : Type) : Type := state -> outcome A * state.

Definition pure {A : Type} (a : A) : M A := fun s => (Next a, s).

Definition bind {A B : Type} (m : M A) (k : A -> M B) : M B :=
  fun s =>
    match m s with
    | (Next a, s') => k a s'
    | (Goto l, s') => (Goto l, s')
    | (Return v, s') => (Return v, s')
    end.

Notation "x <- m ;; k" := (bind m (fun x => k))
  (at level 100, m at next level, right associativity).
Notation "m ;; k" := (bind m (fun _ => k))
  (at level 100, right associativity).

Definition gets {A : Type} (f : state -> A) : M A := fun s => (Next (f s), s).
Definition modify (f : state -> state) : M unit := fun s => (Next tt, f s).
Definition goto {A : Type} (l : label) : M A := fun s => (Goto l, s).
Definition return_ {A : Type} (v : gboolean) : M A := fun s => (Return v, s).
Definition when (b : bool) (m : M unit) : M unit := if b then m else pure tt.

(** Control reaching a label: run the code that follows it. *)
Definition labelled (body : M unit) (at_label : label -> M unit) : M unit :=
  fun s =>
    match body s with
    | (Goto l, s') => at_label l s'
    | other => other
    end.

Definition do_syscall (c : syscall) : M sysret :=
  fun s => let (r, h) := host_step (host s) c in (Next r, after_syscall c r h s).

Definition g_log (lvl : log_level) (fmt : string) (args : list fmt_arg)
  : M unit :=
  modify (add_log lvl (vprintf fmt args)).

Definition g_message := g_log LogMessage.

Definition g_set_error (d : GQuark) (c : GFileError) (fmt : string)
  (args : list fmt_arg) : M unit :=
  modify (fun s => set_error (store_error (error s) (mkGError d c (vprintf fmt args))) s).

(** [g_return_val_if_fail (expr, val)], with GLib's checks compiled in:
    a failed check logs a critical message and returns [val]. *)
Definition g_return_val_if_fail (func : string) (expr : bool)
  (expr_text : string) (val : gboolean) : M unit :=
  if expr then pure tt
  else (g_log LogCritical "%s: assertion '%s' failed"
          [ArgStr func; ArgStr expr_text] ;;
        return_ val).

Definition g_close (fd : Z) : M unit :=
  _ <- do_syscall (SysClose fd) ;; pure tt.

(** [ioctl (dmfd, cmd, &setup)] on the three-part structure of
    [setup_dm_verity]. *)
Definition ioctl_setup (cmd : dm_cmd) : M Z :=
  fd <- gets dmfd ;;
  a <- gets setup ;;
  r <- do_syscall (SysIoctl fd cmd (header a)
                     (Some (target_spec a, params a))) ;;
  modify (set_setup (arg_out r)) ;;
  pure (rv r).

(** [ioctl (dmfd, cmd, &setup)] on the header-only structure of
    [remove_dm_verity]. *)
Definition ioctl_header (cmd : dm_cmd) : M Z :=
  fd <- gets dmfd ;;
  a <- gets setup ;;
  r <- do_syscall (SysIoctl fd cmd (header a) None) ;;
  modify (set_setup (mk_setup (header (arg_out r)) (target_spec a) (params a))) ;;
  pure (rv r).

Definition set_header (h : dm_ioctl) : M unit :=
  modify (fun s => set_setup
    (mk_setup h (target_spec (setup s)) (params (setup s))) s).

Definition set_target_spec (t : dm_target_spec) : M unit :=
  modify (fun s => set_setup
    (mk_setup (header (setup s)) t (params (setup s))) s).

Definition set_params (p : string) : M unit :=
  modify (fun s => set_setup
    (mk_setup (header (setup s)) (target_spec (setup s)) p) s).

(** *** [setup_dm_verity] *)

Definition params_format : string :=
  "1 %s %s 4096 4096 %" ++ G_GUINT64_FORMAT ++ " %" ++ G_GUINT64_FORMAT
    ++ " sha256 %s %s".

(** Lines 61 to 67: the guards on the device and on the error location. *)
Definition setup_guards : M unit :=
  d <- gets dm_verity ;;
  e <- gets error ;;
  g_return_val_if_fail "setup_dm_verity" (negb (is_null (uuid d)))
    "dm_verity->uuid != NULL" FALSE ;;
  g_return_val_if_fail "setup_dm_verity" (negb (is_null (lower_dev d)))
    "dm_verity->lower_dev != NULL" FALSE ;;
  g_return_val_if_fail "setup_dm_verity" (is_null (upper_dev d))
    "dm_verity->upper_dev == NULL" FALSE ;;
  g_return_val_if_fail "setup_dm_verity"
    ((0 <? data_size d)%N && (data_size d mod 4096 =? 0)%N)
    "dm_verity->data_size > 0 && dm_verity->data_size % 4096 == 0" FALSE ;;
  g_return_val_if_fail "setup_dm_verity" (negb (is_null (root_digest d)))
    "dm_verity->root_digest != NULL" FALSE ;;
  g_return_val_if_fail "setup_dm_verity" (negb (is_null (salt d)))
    "dm_verity->salt != NULL" FALSE ;;
  g_return_val_if_fail "setup_dm_verity" (error_loc_clear e)
    "error == NULL || *error == NULL" FALSE.

(** Lines 69 to 190: from opening the control node to [goto out]. *)
Definition setup_body : M unit :=
  r <- do_syscall (SysOpen "/dev/mapper/control" (Z.lor O_RDWR O_CLOEXEC)) ;;
  modify (set_dmfd (rv r)) ;;
  when (rv r <? 0)%Z
    (g_set_error G_FILE_ERROR G_FILE_ERROR_FAILED
       "Failed to open /dev/mapper/control" [] ;;
     modify (set_res FALSE) ;;
     goto out) ;;
  (* create our dm-verity device *)
  d <- gets dm_verity ;;
  set_header (dm_set_header sizeof_setup DM_READONLY_FLAG (str (uuid d))) ;;
  a <- gets setup ;;
  set_header (set_name (g_strlcpy "rauc-verity-bundle" DM_NAME_LEN) (header a)) ;;
  rc <- ioctl_setup DM_DEV_CREATE ;;
  when (negb (rc =? 0)%Z)
    (en <- gets errno ;;
     g_set_error G_FILE_ERROR G_FILE_ERROR_FAILED
       "Failed to create dm device: %s" [ArgStr (g_strerror en)] ;;
     modify (set_res FALSE) ;;
     goto out) ;;
  (* configure dm-verity *)
  set_header (dm_set_header sizeof_setup DM_READONLY_FLAG (str (uuid d))) ;;
  a <- gets setup ;;
  set_header (set_target_count 1 (header a)) ;;
  a <- gets setup ;;
  set_target_spec
    (mk_dm_target_spec 0 (data_size d / 512) 0 (next (target_spec a))
       (g_strlcpy "verity" DM_MAX_TYPE_NAME)) ;;
  let (p, n) :=
    g_snprintf sizeof_params params_format
      [ArgStr (str (lower_dev d)); ArgStr (str (lower_dev d));
       ArgUInt64 (data_size d / 4096); ArgUInt64 (data_size d / 4096);
       ArgStr (str (root_digest d)); ArgStr (str (salt d))] in
  set_params p ;;
  when (n >=? Z.of_nat sizeof_params)%Z
    (g_set_error G_FILE_ERROR G_FILE_ERROR_FAILED
       "Failed to generate dm parameter string" [] ;;
     modify (set_res FALSE) ;;
     goto out_remove_dm) ;;
  rc <- ioctl_setup DM_TABLE_LOAD ;;
  when (negb (rc =? 0)%Z)
    (en <- gets errno ;;
     g_set_error G_FILE_ERROR G_FILE_ERROR_FAILED
       "Failed to load dm table: %s" [ArgStr (g_strerror en)] ;;
     modify (set_res FALSE) ;;
     goto out_remove_dm) ;;
  (* activate the configuration *)
  set_header (dm_set_header sizeof_setup 0 (str (uuid d))) ;;
  rc <- ioctl_setup DM_DEV_SUSPEND ;;
  when (negb (rc =? 0)%Z)
    (en <- gets errno ;;
     g_set_error G_FILE_ERROR G_FILE_ERROR_FAILED
       "Failed to resume dm device: %s" [ArgStr (g_strerror en)] ;;
     modify (set_res FALSE) ;;
     goto out_remove_dm) ;;
  a <- gets setup ;;
  modify (fun s => set_dm_verity
    (set_upper_dev
       (Some (g_strdup_printf "/dev/dm-%u"
                [ArgUInt (Z.to_N (minor (dev (header a))))]))
       (dm_verity s)) s) ;;
  (* quick check the at least the first block verifies ok *)
  d <- gets dm_verity ;;
  r <- do_syscall (SysOpen (str (upper_dev d)) (Z.lor O_RDONLY O_CLOEXEC)) ;;
  modify (set_checkfd (rv r)) ;;
  when (rv r <? 0)%Z
    (g_set_error G_FILE_ERROR G_FILE_ERROR_FAILED
       "Failed to open %s" [ArgStr (str (upper_dev d))] ;;
     modify (set_res FALSE) ;;
     goto out_remove_dm) ;;
  cfd <- gets checkfd ;;
  r <- do_syscall (SysRead cfd 1) ;;
  when (negb (rv r =? 1)%Z)
    (en <- gets errno ;;
     g_set_error G_FILE_ERROR G_FILE_ERROR_FAILED
       "Check read from dm-verity device failed: %s" [ArgStr (g_strerror en)] ;;
     modify (set_res FALSE) ;;
     goto out_remove_dm) ;;
  set_header (dm_set_header sizeof_setup 0 (str (uuid d))) ;;
  rc <- ioctl_setup DM_TABLE_STATUS ;;
  when (negb (rc =? 0)%Z)
    (en <- gets errno ;;
     g_set_error G_FILE_ERROR G_FILE_ERROR_FAILED
       "Failed to query dm device status: %s" [ArgStr (g_strerror en)] ;;
     modify (set_res FALSE) ;;
     goto out_remove_dm) ;;
  a <- gets setup ;;
  when (negb (g_strcmp0 (params a) "V" =? 0)%Z)
    (g_set_error G_FILE_ERROR G_FILE_ERROR_FAILED
       "Unexpected dm-verity status '%s' (instead of 'V')"
       [ArgStr (params a)] ;;
     modify (set_res FALSE) ;;
     goto out_remove_dm) ;;
  g_message "Configured dm-verity device '%s'" [ArgStr (str (upper_dev d))] ;;
  modify (set_res TRUE) ;;
  goto out.

(** Lines 192 to 204: the code at [out_remove_dm], up to [out]. *)
Definition setup_at_out_remove_dm : M unit :=
  (* clean up after a failed setup *)
  cfd <- gets checkfd ;;
  when (cfd >=? 0)%Z
    (g_close cfd ;;
     modify (set_checkfd (-1))) ;;
  d <- gets dm_verity ;;
  set_header (dm_set_header sizeof_setup 0 (str (uuid d))) ;;
  rc <- ioctl_setup DM_DEV_REMOVE ;;
  when (negb (rc =? 0)%Z)
    (en <- gets errno ;;
     g_message "Failed to remove bad dm-verity device on error: %s"
       [ArgStr (g_strerror en)]).

(** Lines 205 to 211: the code at [out]. *)
Definition setup_at_out : M unit :=
  cfd <- gets checkfd ;;
  when (cfd >=? 0)%Z (g_close cfd) ;;
  fd <- gets dmfd ;;
  when (fd >=? 0)%Z (g_close fd) ;;
  v <- gets res ;;
  return_ v.

Definition setup_at (l : label) : M unit :=
  match l with
  | out_remove_dm => setup_at_out_remove_dm ;; setup_at_out
  | out => setup_at_out
  end.

Definition setup_fn : M unit :=
  setup_guards ;;
  labelled setup_body setup_at.

(** *** [remove_dm_verity] *)

Definition remove_guards : M unit :=
  d <- gets dm_verity ;;
  e <- gets error ;;
  g_return_val_if_fail "remove_dm_verity" (negb (is_null (uuid d)))
    "dm_verity->uuid != NULL" FALSE ;;
  g_return_val_if_fail "remove_dm_verity" (negb (is_null (lower_dev d)))
    "dm_verity->lower_dev != NULL" FALSE ;;
  g_return_val_if_fail "remove_dm_verity" (negb (is_null (upper_dev d)))
    "dm_verity->upper_dev != NULL" FALSE ;;
  g_return_val_if_fail "remove_dm_verity"
    ((0 <? data_size d)%N && (data_size d mod 4096 =? 0)%N)
    "dm_verity->data_size > 0 && dm_verity->data_size % 4096 == 0" FALSE ;;
  g_return_val_if_fail "remove_dm_verity" (negb (is_null (root_digest d)))
    "dm_verity->root_digest != NULL" FALSE ;;
  g_return_val_if_fail "remove_dm_verity" (negb (is_null (salt d)))
    "dm_verity->salt != NULL" FALSE ;;
  g_return_val_if_fail "remove_dm_verity" (error_loc_clear e)
    "error == NULL || *error == NULL" FALSE.

(** Lines 231 to 257. *)
Definition remove_body (deferred : gboolean) : M unit :=
  r <- do_syscall (SysOpen "/dev/mapper/control" (Z.lor O_RDWR O_CLOEXEC)) ;;
  modify (set_dmfd (rv r)) ;;
  when (rv r <? 0)%Z
    (g_set_error G_FILE_ERROR G_FILE_ERROR_FAILED
       "Failed to open /dev/mapper/control" [] ;;
     modify (set_res FALSE) ;;
     goto out) ;;
  d <- gets dm_verity ;;
  set_header (dm_set_header sizeof_dm_ioctl
                (if deferred then DM_DEFERRED_REMOVE else 0)
                (str (uuid d))) ;;
  rc <- ioctl_header DM_DEV_REMOVE ;;
  when (negb (rc =? 0)%Z)
    (en <- gets errno ;;
     g_set_error G_FILE_ERROR G_FILE_ERROR_FAILED
       "Failed to remove dm device: %s" [ArgStr (g_strerror en)] ;;
     modify (set_res FALSE) ;;
     goto out) ;;
  modify (fun s => set_dm_verity (set_upper_dev None (dm_verity s)) s) ;;
  modify (set_res TRUE) ;;
  goto out.

(** Lines 258 to 262: the code at [out]. *)
Definition remove_at_out : M unit :=
  fd <- gets dmfd ;;
  when (fd >=? 0)%Z (g_close fd) ;;
  v <- gets res ;;
  return_ v.

Definition remove_fn (deferred : gboolean) : M unit :=
  remove_guards ;;
  labelled (remove_body deferred) (fun _ => remove_at_out).

(** *** Calls *)

(** What a caller observes: the return value, the device structure and the
    error location after the call, the events of the call, and the host. *)
Record result : Type := mkResult {
  r_ret : gboolean;
  r_dev : option RaucDMVerity;
  r_error : error_loc;
  r_trace : list event;
  r_host : Host
}.

(** The locals as their declarations initialise them. *)
Definition initial_state (d : RaucDMVerity) (e : error_loc) (h : Host)
  : state :=
  mkState FALSE (-1) (-1) setup_zero d e 0 h [].

(** A call with a non-NULL [dm_verity].  Both functions leave through
    [return res]; the last branch is never taken. *)
Definition call (fn : M unit) (d : RaucDMVerity) (e : error_loc) (h : Host)
  : result :=
  match fn (initial_state d e h) with
  | (Return v, s) => mkResult v (Some (dm_verity s)) (error s) (trace s) (host s)
  | (_, s) => mkResult (res s) (Some (dm_verity s)) (error s) (trace s) (host s)
  end.

(** A call with [dm_verity == NULL]: the first guard fails. *)
Definition call_null (func : string) (e : error_loc) (h : Host) : result :=
  mkResult FALSE None e
    [EvLog LogCritical
       (vprintf "%s: assertion '%s' failed"
          [ArgStr func; ArgStr "dm_verity != NULL"])] h.

Definition setup_dm_verity (dm : option RaucDMVerity) (e : error_loc)
  (h : Host) : result :=
  match dm with
  | None => call_null "setup_dm_verity" e h
  | Some d => call setup_fn d e h
  end.

Definition remove_dm_verity (dm : option RaucDMVerity) (deferred : gboolean)
  (e : error_loc) (h : Host) : result :=
  match dm with
  | None => call_null "remove_dm_verity" e h
  | Some d => call (remove_fn deferred) d e h
  end.

End Model.

Arguments Next {A} a.
Arguments Goto {A} l.
Arguments Return {A} v.
Arguments r_ret {Host} r.
Arguments r_dev {Host} r.
Arguments r_error {Host} r.
Arguments r_trace {Host} r.
Arguments r_host {Host} r.
Arguments setup_dm_verity {Host} host_step g_strerror dm e h.
Arguments remove_dm_verity {Host} host_step g_strerror dm deferred e h.

(** ** The shapes a call can take

    The requests of each step, read off the code above, and the complete
    list of runs of either function: one constructor per exit.  The
    theorems below first show that every call is one of these runs and then
    read the claims off the list. *)

Definition file_error (msg : string) : GError :=
  mkGError G_FILE_ERROR G_FILE_ERROR_FAILED msg.

Definition control_open : syscall :=
  SysOpen "/dev/mapper/control" (Z.lor O_RDWR O_CLOEXEC).

Definition create_request (d : RaucDMVerity) (fd : Z) : syscall :=
  SysIoctl fd DM_DEV_CREATE
    (set_name (g_strlcpy "rauc-verity-bundle" DM_NAME_LEN)
       (dm_set_header sizeof_setup DM_READONLY_FLAG (str (uuid d))))
    (Some (dm_target_spec_zero, EmptyString)).

(** The expansion handed to [g_snprintf]. *)
Definition param_string (d : RaucDMVerity) : string :=
  vprintf params_format
    [ArgStr (str (lower_dev d)); ArgStr (str (lower_dev d));
     ArgUInt64 (data_size d / 4096); ArgUInt64 (data_size d / 4096);
     ArgStr (str (root_digest d)); ArgStr (str (salt d))].

(** The target and parameter buffer as they stand after formatting. *)
Definition table_payload (d : RaucDMVerity) (r_create : sysret)
  : dm_target_spec * string :=
  (mk_dm_target_spec 0 (data_size d / 512) 0
     (next (target_spec (arg_out r_create)))
     (g_strlcpy "verity" DM_MAX_TYPE_NAME),
   string_take (sizeof_params - 1) (param_string d)).

Definition payload_of (r : sysret) : dm_target_spec * string :=
  (target_spec (arg_out r), params (arg_out r)).

Definition load_request (d : RaucDMVerity) (fd : Z) (r_create : sysret)
  : syscall :=
  SysIoctl fd DM_TABLE_LOAD
    (set_target_count 1
       (dm_set_header sizeof_setup DM_READONLY_FLAG (str (uuid d))))
    (Some (table_payload d r_create)).

Definition resume_request (d : RaucDMVerity) (fd : Z) (r_load : sysret)
  : syscall :=
  SysIoctl fd DM_DEV_SUSPEND (dm_set_header sizeof_setup 0 (str (uuid d)))
    (Some (payload_of r_load)).

(** The node name derived from the answer to the resume request. *)
Definition upper_dev_of (r_resume : sysret) : string :=
  "/dev/dm-" ++ decimal (Z.to_N (minor (dev (header (arg_out r_resume))))).

Definition probe_open (r_resume : sysret) : syscall :=
  SysOpen (upper_dev_of r_resume) (Z.lor O_RDONLY O_CLOEXEC).

Definition probe_read (cfd : Z) : syscall := SysRead cfd 1.

Definition status_request (d : RaucDMVerity) (fd : Z) (r_resume : sysret)
  : syscall :=
  SysIoctl fd DM_TABLE_STATUS (dm_set_header sizeof_setup 0 (str (uuid d)))
    (Some (payload_of r_resume)).

(** The request at [out_remove_dm]; the payload is whatever the structure
    holds when the jump is taken. *)
Definition rollback_request (d : RaucDMVerity) (fd : Z)
  (pl : dm_target_spec * string) : syscall :=
  SysIoctl fd DM_DEV_REMOVE (dm_set_header sizeof_setup 0 (str (uuid d)))
    (Some pl).

(** The request of [remove_dm_verity]. *)
Definition remove_request (d : RaucDMVerity) (deferred : gboolean) (fd : Z)
  : syscall :=
  SysIoctl fd DM_DEV_REMOVE
    (dm_set_header sizeof_dm_ioctl
       (if deferred then DM_DEFERRED_REMOVE else 0) (str (uuid d)))
    None.

Section Runs.

Context {Host : Type}.
Variable g_strerror : Z -> string.

(** The events of the steps passed so far. *)
Definition upto_open (r1 : sysret) : list event :=
  [EvSys control_open r1].
Definition upto_create d r1 r2 : list event :=
  upto_open r1 ++ [EvSys (create_request d (rv r1)) r2].
Definition upto_load d r1 r2 r3 : list event :=
  upto_create d r1 r2 ++ [EvSys (load_request d (rv r1) r2) r3].
Definition upto_resume d r1 r2 r3 r4 : list event :=
  upto_load d r1 r2 r3 ++ [EvSys (resume_request d (rv r1) r3) r4].
Definition upto_probe_open d r1 r2 r3 r4 r5 : list event :=
  upto_resume d r1 r2 r3 r4 ++ [EvSys (probe_open r4) r5].
Definition upto_probe_read d r1 r2 r3 r4 r5 r6 : list event :=
  upto_probe_open d r1 r2 r3 r4 r5 ++ [EvSys (probe_read (rv r5)) r6].
Definition upto_status d r1 r2 r3 r4 r5 r6 r7 : list event :=
  upto_probe_read d r1 r2 r3 r4 r5 r6
    ++ [EvSys (status_request d (rv r1) r4) r7].

(** The events from [out_remove_dm] up to [out]: the rollback request,
    and a message when it fails. *)
Definition rollback (d : RaucDMVerity) (fd : Z)
  (pl : dm_target_spec * string) (rr : sysret) : list event :=
  EvSys (rollback_request d fd pl) rr ::
  (if (rv rr =? 0)%Z then []
   else [EvLog LogMessage
           ("Failed to remove bad dm-verity device on error: "
              ++ g_strerror (err rr))]).

Definition close (fd : Z) (rc : sysret) : list event :=
  [EvSys (SysClose fd) rc].

(** The device once [upper_dev] has been assigned. *)
Definition activated (d : RaucDMVerity) (r_resume : sysret) : RaucDMVerity :=
  set_upper_dev (Some (upper_dev_of r_resume)) d.

Inductive setup_run (d : RaucDMVerity) (e : error_loc)
  : result Host -> Prop :=
| run_open_failed r1 h' :
    (rv r1 < 0)%Z ->
    setup_run d e
      (mkResult Host FALSE (Some d)
         (store_error e (file_error "Failed to open /dev/mapper/control"))
         (upto_open r1) h')
| run_create_failed r1 r2 rc h' :
    (0 <= rv r1)%Z -> rv r2 <> 0%Z ->
    setup_run d e
      (mkResult Host FALSE (Some d)
         (store_error e
            (file_error ("Failed to create dm device: " ++ g_strerror (err r2))))
         (upto_create d r1 r2 ++ close (rv r1) rc) h')
| run_format_failed r1 r2 rr rc h' :
    (0 <= rv r1)%Z -> rv r2 = 0%Z ->
    (Z.of_nat sizeof_params <= Z.of_nat (String.length (param_string d)))%Z ->
    setup_run d e
      (mkResult Host FALSE (Some d)
         (store_error e (file_error "Failed to generate dm parameter string"))
         (upto_create d r1 r2
            ++ rollback d (rv r1) (table_payload d r2) rr
            ++ close (rv r1) rc) h')
| run_load_failed r1 r2 r3 rr rc h' :
    (0 <= rv r1)%Z -> rv r2 = 0%Z ->
    (Z.of_nat (String.length (param_string d)) < Z.of_nat sizeof_params)%Z ->
    rv r3 <> 0%Z ->
    setup_run d e
      (mkResult Host FALSE (Some d)
         (store_error e
            (file_error ("Failed to load dm table: " ++ g_strerror (err r3))))
         (upto_load d r1 r2 r3
            ++ rollback d (rv r1) (payload_of r3) rr
            ++ close (rv r1) rc) h')
| run_resume_failed r1 r2 r3 r4 rr rc h' :
    (0 <= rv r1)%Z -> rv r2 = 0%Z ->
    (Z.of_nat (String.length (param_string d)) < Z.of_nat sizeof_params)%Z ->
    rv r3 = 0%Z -> rv r4 <> 0%Z ->
    setup_run d e
      (mkResult Host FALSE (Some d)
         (store_error e
            (file_error ("Failed to resume dm device: " ++ g_strerror (err r4))))
         (upto_resume d r1 r2 r3 r4
            ++ rollback d (rv r1) (payload_of r4) rr
            ++ close (rv r1) rc) h')
| run_probe_open_failed r1 r2 r3 r4 r5 rr rc h' :
    (0 <= rv r1)%Z -> rv r2 = 0%Z ->
    (Z.of_nat (String.length (param_string d)) < Z.of_nat sizeof_params)%Z ->
    rv r3 = 0%Z -> rv r4 = 0%Z -> (rv r5 < 0)%Z ->
    setup_run d e
      (mkResult Host FALSE (Some (activated d r4))
         (store_error e (file_error ("Failed to open " ++ upper_dev_of r4)))
         (upto_probe_open d r1 r2 r3 r4 r5
            ++ rollback d (rv r1) (payload_of r4) rr
            ++ close (rv r1) rc) h')
| run_probe_read_failed r1 r2 r3 r4 r5 r6 rcc rr rc h' :
    (0 <= rv r1)%Z -> rv r2 = 0%Z ->
    (Z.of_nat (String.length (param_string d)) < Z.of_nat sizeof_params)%Z ->
    rv r3 = 0%Z -> rv r4 = 0%Z -> (0 <= rv r5)%Z -> rv r6 <> 1%Z ->
    setup_run d e
      (mkResult Host FALSE (Some (activated d r4))
         (store_error e
            (file_error ("Check read from dm-verity device failed: "
                           ++ g_strerror (err r6))))
         (upto_probe_read d r1 r2 r3 r4 r5 r6
            ++ close (rv r5) rcc
            ++ rollback d (rv r1) (payload_of r4) rr
            ++ close (rv r1) rc) h')
| run_status_failed r1 r2 r3 r4 r5 r6 r7 rcc rr rc h' :
    (0 <= rv r1)%Z -> rv r2 = 0%Z ->
    (Z.of_nat (String.length (param_string d)) < Z.of_nat sizeof_params)%Z ->
    rv r3 = 0%Z -> rv r4 = 0%Z -> (0 <= rv r5)%Z -> rv r6 = 1%Z ->
    rv r7 <> 0%Z ->
    setup_run d e
      (mkResult Host FALSE (Some (activated d r4))
         (store_error e
            (file_error ("Failed to query dm device status: "
                           ++ g_strerror (err r7))))
         (upto_status d r1 r2 r3 r4 r5 r6 r7
            ++ close (rv r5) rcc
            ++ rollback d (rv r1) (payload_of r7) rr
            ++ close (rv r1) rc) h')
| run_status_unexpected r1 r2 r3 r4 r5 r6 r7 rcc rr rc h' :
    (0 <= rv r1)%Z -> rv r2 = 0%Z ->
    (Z.of_nat (String.length (param_string d)) < Z.of_nat sizeof_params)%Z ->
    rv r3 = 0%Z -> rv r4 = 0%Z -> (0 <= rv r5)%Z -> rv r6 = 1%Z ->
    rv r7 = 0%Z -> params (arg_out r7) <> "V" ->
    setup_run d e
      (mkResult Host FALSE (Some (activated d r4))
         (store_error e
            (file_error ("Unexpected dm-verity status '"
                           ++ params (arg_out r7) ++ "' (instead of 'V')")))
         (upto_status d r1 r2 r3 r4 r5 r6 r7
            ++ close (rv r5) rcc
            ++ rollback d (rv r1) (payload_of r7) rr
            ++ close (rv r1) rc) h')
| run_success r1 r2 r3 r4 r5 r6 r7 rcc rc h' :
    (0 <= rv r1)%Z -> rv r2 = 0%Z ->
    (Z.of_nat (String.length (param_string d)) < Z.of_nat sizeof_params)%Z ->
    rv r3 = 0%Z -> rv r4 = 0%Z -> (0 <= rv r5)%Z -> rv r6 = 1%Z ->
    rv r7 = 0%Z -> params (arg_out r7) = "V" ->
    setup_run d e
      (mkResult Host TRUE (Some (activated d r4)) e
         (upto_status d r1 r2 r3 r4 r5 r6 r7
            ++ [EvLog LogMessage
                  ("Configured dm-verity device '" ++ upper_dev_of r4 ++ "'")]
            ++ close (rv r5) rcc
            ++ close (rv r1) rc) h').

Inductive remove_run (d : RaucDMVerity) (deferred : gboolean) (e : error_loc)
  : result Host -> Prop :=
| rm_open_failed r1 h' :
    (rv r1 < 0)%Z ->
    remove_run d deferred e
      (mkResult Host FALSE (Some d)
         (store_error e (file_error "Failed to open /dev/mapper/control"))
         (upto_open r1) h')
| rm_ioctl_failed r1 r2 rc h' :
    (0 <= rv r1)%Z -> rv r2 <> 0%Z ->
    remove_run d deferred e
      (mkResult Host FALSE (Some d)
         (store_error e
            (file_error ("Failed to remove dm device: " ++ g_strerror (err r2))))
         (upto_open r1 ++ [EvSys (remove_request d deferred (rv r1)) r2]
            ++ close (rv r1) rc) h')
| rm_success r1 r2 rc h' :
    (0 <= rv r1)%Z -> rv r2 = 0%Z ->
    remove_run d deferred e
      (mkResult Host TRUE (Some (set_upper_dev None d)) e
         (upto_open r1 ++ [EvSys (remove_request d deferred (rv r1)) r2]
            ++ close (rv r1) rc) h').

(** The guards of the two functions, as propositions. *)
Definition common_guards (d : RaucDMVerity) (e : error_loc) : Prop :=
  uuid d <> None /\ lower_dev d <> None /\
  (0 < data_size d)%N /\ (data_size d mod 4096 = 0)%N /\
  root_digest d <> None /\ salt d <> None /\ error_loc_clear e = true.

Definition setup_guards_hold (d : RaucDMVerity) (e : error_loc) : Prop :=
  upper_dev d = None /\ common_guards d e.

Definition remove_guards_hold (d : RaucDMVerity) (e : error_loc) : Prop :=
  upper_dev d <> None /\ common_guards d e.

(** [upper_dev] as the call leaves it. *)
Definition upper_dev_after (R : result Host) : option string :=
  match r_dev R with
  | Some d => upper_dev d
  | None => None
  end.

(** A rejected call logs the failed check and does nothing else. *)
Definition rejected (d : RaucDMVerity) (e : error_loc) (h : Host)
  (R : result Host) : Prop :=
  exists msg, R = mkResult Host FALSE (Some d) e [EvLog LogCritical msg] h.

End Runs.

(** ** A scripted host

    The host state is the list of answers still to give; each system call
    consumes one.  Once the script is exhausted every call fails. *)

Definition answer (r : Z) (en : Z) : sysret := mk_sysret r en setup_zero.

Definition script_step (h : list sysret) (c : syscall) : sysret * list sysret :=
  match h with
  | r :: h' => (r, h')
  | [] => (answer (-1) 5, [])
  end.

(** A few [errno] texts. *)
Definition strerror_table (en : Z) : string :=
  match en with
  | 2 => "No such file or directory"
  | 5 => "Input/output error"
  | 16 => "Device or resource busy"
  | 22 => "Invalid argument"
  | _ => "Unknown error"
  end%Z.

Definition example_dev : RaucDMVerity :=
  mkRaucDMVerity (Some "2f6a4c1e-0b7d-4e55-9d3a-6c1f0a9b8e21")
    (Some "/dev/loop0") None 4096
    (Some "3049cbffaa49c6dc12e9cd1dd4604ef5a290e4dbe8f4a4f5d0bd6bf774e7de1f")
    (Some "799ea94008bbdc6555d7895d1b647e2a") .

(** Calls against a script, with an empty error location. *)
Abbreviation run_setup d script :=
  (setup_dm_verity script_step strerror_table (Some d) (Some None) script).

Abbreviation run_remove d deferred script :=
  (remove_dm_verity script_step strerror_table (Some d) deferred (Some None)
     script).

(** The answer to a resume request: the header comes back with the device
    number of 253:5. *)
Definition resume_ok : sysret :=
  mk_sysret 0 0
    (mk_setup (mk_dm_ioctl (4, 0, 0)%Z 1376 312 0 0 0 0 64773 "" "")
       dm_target_spec_zero "").

(** The answer to a status query: the status string in the buffer. *)
Definition status_answer (st : string) : sysret :=
  mk_sysret 0 0 (mk_setup dm_ioctl_zero dm_target_spec_zero st).

(** Open, create, load, resume, probe open, probe read, status, and the two
    closes. *)
Definition all_good : list sysret :=
  [answer 3 0; answer 0 0; answer 0 0; resume_ok; answer 4 0; answer 1 0;
   status_answer "V"; answer 0 0; answer 0 0].

Definition create_fails : list sysret :=
  [answer 3 0; answer (-1) 16; answer 0 0].

Definition load_fails : list sysret :=
  [answer 3 0; answer 0 0; answer (-1) 22; answer 0 0; answer 0 0].

Definition probe_open_fails : list sysret :=
  [answer 3 0; answer 0 0; answer 0 0; resume_ok; answer (-1) 2;
   answer 0 0; answer 0 0].

(** As [all_good], with another status string; the rollback follows. *)
Definition status_is (st : string) : list sysret :=
  [answer 3 0; answer 0 0; answer 0 0; resume_ok; answer 4 0; answer 1 0;
   status_answer st; answer 0 0; answer 0 0; answer 0 0].

(** An active device, as a successful setup leaves it. *)
Definition active_dev : RaucDMVerity :=
  set_upper_dev (Some "/dev/dm-5") example_dev.

Definition remove_good : list sysret := [answer 3 0; answer 0 0; answer 0 0].
Definition remove_ioctl_fails : list sysret :=
  [answer 3 0; answer (-1) 16; answer 0 0].

(** The control node cannot be opened. *)
Definition control_unavailable : list sysret := [answer (-1) 2].

(** The table load fails, and so does the removal that follows. *)
Definition rollback_fails : list sysret :=
  [answer 3 0; answer 0 0; answer (-1) 22; answer (-1) 16; answer 0 0].

(** Devices at the edge of the parameter buffer. *)
Definition letters (n : nat) : string :=
  string_of_list_ascii (List.repeat "a"%char n).

Definition dev_named (lower sl : string) : RaucDMVerity :=
  mkRaucDMVerity (uuid example_dev) (Some lower) None 4096
    (root_digest example_dev) (Some sl).

(** A parameter string of 1023 characters. *)
Definition dev_1023 : RaucDMVerity :=
  dev_named (letters 450) "799ea94008bbdc6555d7895d1b647e2a0".

(** A parameter string of 1024 characters. *)
Definition dev_1024 : RaucDMVerity :=
  dev_named (letters 451) "799ea94008bbdc6555d7895d1b647e2a".

(** A device whose uuid is longer than the header field. *)
Definition dev_long_uuid : RaucDMVerity :=
  mkRaucDMVerity (Some (letters 200)) (lower_dev example_dev) None 4096
    (root_digest example_dev) (salt example_dev).

(** ** Reading a trace

    The points at which the host can make [setup_dm_verity] fail after the
    control node is open, and how each shows in the trace. *)

Inductive step : Type :=
| StepCreate
| StepLoadTable
| StepActivate
| StepProbeOpen
| StepProbeRead
| StepStatusQuery
| StepStatusValue.

Definition fails_at (s : step) (ev : event) : bool :=
  match s, ev with
  | StepCreate, EvSys (SysIoctl _ DM_DEV_CREATE _ _) r => negb (rv r =? 0)%Z
  | StepLoadTable, EvSys (SysIoctl _ DM_TABLE_LOAD _ _) r => negb (rv r =? 0)%Z
  | StepActivate, EvSys (SysIoctl _ DM_DEV_SUSPEND _ _) r => negb (rv r =? 0)%Z
  | StepProbeOpen, EvSys (SysOpen _ fl) r =>
      (fl =? Z.lor O_RDONLY O_CLOEXEC)%Z && (rv r <? 0)%Z
  | StepProbeRead, EvSys (SysRead _ _) r => negb (rv r =? 1)%Z
  | StepStatusQuery, EvSys (SysIoctl _ DM_TABLE_STATUS _ _) r =>
      negb (rv r =? 0)%Z
  | StepStatusValue, EvSys (SysIoctl _ DM_TABLE_STATUS _ _) r =>
      (rv r =? 0)%Z && negb (params (arg_out r) =? "V")%string
  | _, _ => false
  end.

(** The host made step [s] fail during the call that left trace [t]. *)
Definition injected (s : step) (t : list event) : Prop :=
  existsb (fails_at s) t = true.

(** The fixed part of the message each failure is reported with. *)
Definition step_message (s : step) : string :=
  match s with
  | StepCreate => "Failed to create dm device: "
  | StepLoadTable => "Failed to load dm table: "
  | StepActivate => "Failed to resume dm device: "
  | StepProbeOpen => "Failed to open /dev/dm-"
  | StepProbeRead => "Check read from dm-verity device failed: "
  | StepStatusQuery => "Failed to query dm device status: "
  | StepStatusValue => "Unexpected dm-verity status '"
  end.

(** The rollback requests a failure at [s] is followed by. *)
Definition rollbacks_after (s : step) : nat :=
  match s with
  | StepCreate => 0
  | _ => 1
  end.

(** The uuid field of a removal request. *)
Definition remove_uuid (ev : event) : option string :=
  match ev with
  | EvSys (SysIoctl _ DM_DEV_REMOVE hdr _) _ => Some (hdr_uuid hdr)
  | _ => None
  end.

(** The control node was opened, with answer [r]. *)
Definition control_opened (r : sysret) (t : list event) : Prop :=
  In (EvSys control_open r) t.



(** The conditions under which the guards of [setup_dm_verity] reject a
    device, and those of [remove_dm_verity]. *)
Definition fields_missing (d : RaucDMVerity) : Prop :=
  data_size d = 0%N \/ (data_size d mod 4096 <> 0)%N \/
  uuid d = None \/ lower_dev d = None \/ root_digest d = None \/ salt d = None.

Definition setup_rejects (d : RaucDMVerity) : Prop :=
  upper_dev d <> None \/ fields_missing d.

Definition remove_rejects (d : RaucDMVerity) : Prop :=
  upper_dev d = None \/ fields_missing d.

(** ** Further readings of a trace *)

(** The commands of the ioctl requests of a trace, in order. *)
Definition ioctl_cmds (t : list event) : list dm_cmd :=
  flat_map (fun ev =>
              match ev with
              | EvSys (SysIoctl _ c _ _) _ => [c]
              | _ => []
              end) t.

Definition is_close (ev : event) : bool :=
  match ev with
  | EvSys (SysClose _) _ => true
  | _ => false
  end.

Definition is_read (ev : event) : bool :=
  match ev with
  | EvSys (SysRead _ _) _ => true
  | _ => false
  end.

(** An open that returned a descriptor. *)
Definition opened_ok (ev : event) : bool :=
  match ev with
  | EvSys (SysOpen _ _) r => (0 <=? rv r)%Z
  | _ => false
  end.

(** The orders in which [setup_dm_verity] can issue its ioctl requests. *)
Definition setup_sequences : list (list dm_cmd) :=
  [ [];
    [DM_DEV_CREATE];
    [DM_DEV_CREATE; DM_DEV_REMOVE];
    [DM_DEV_CREATE; DM_TABLE_LOAD; DM_DEV_REMOVE];
    [DM_DEV_CREATE; DM_TABLE_LOAD; DM_DEV_SUSPEND; DM_DEV_REMOVE];
    [DM_DEV_CREATE; DM_TABLE_LOAD; DM_DEV_SUSPEND; DM_TABLE_STATUS;
     DM_DEV_REMOVE];
    [DM_DEV_CREATE; DM_TABLE_LOAD; DM_DEV_SUSPEND; DM_TABLE_STATUS] ].

(** The flags, name and target count [setup_dm_verity] puts in the header
    of each request. *)
Definition setup_flags (c : dm_cmd) : Z :=
  match c with
  | DM_DEV_CREATE | DM_TABLE_LOAD => DM_READONLY_FLAG
  | _ => 0
  end.

Definition setup_name (c : dm_cmd) : string :=
  match c with
  | DM_DEV_CREATE => "rauc-verity-bundle"
  | _ => EmptyString
  end.

Definition setup_target_count (c : dm_cmd) : Z :=
  match c with
  | DM_TABLE_LOAD => 1
  | _ => 0
  end.

(** [d'] has the fields of [d] that neither function assigns. *)
Definition same_identity (d d' : RaucDMVerity) : Prop :=
  uuid d' = uuid d /\ lower_dev d' = lower_dev d /\
  data_size d' = data_size d /\ root_digest d' = root_digest d /\
  salt d' = salt d.

(** A result with its error location replaced. *)
Definition with_error {Host : Type} (e : error_loc) (R : result Host)
  : result Host :=
  mkResult Host (r_ret R) (r_dev R) e (r_trace R) (r_host R).

(** [new_dm_verity]: [g_malloc0] zeroes the structure, and [uuid] receives
    the string [g_uuid_string_random] returns, here [random_uuid]. *)
Definition new_dm_verity (random_uuid : string) : RaucDMVerity :=
  mkRaucDMVerity (Some random_uuid) None None 0 None None.

(** * Theorems *)

(** ** Strings and formats *)

Lemma string_app_nil_r (s : string) : s ++ "" = s.
Proof.
  induction s as [|c s IH]; cbn; [reflexivity | now rewrite IH].
Qed.

Lemma string_take_all (n : nat) (s : string) :
  String.length s <= n -> string_take n s = s.
Proof.
  revert n; induction s as [|c s IH]; intros [|n] H; cbn in *;
    try reflexivity; try lia.
  rewrite IH by lia. reflexivity.
Qed.

Lemma string_take_length (n : nat) (s : string) :
  String.length (string_take n s) <= n.
Proof.
  revert n; induction s as [|c s IH]; intros [|n]; cbn; try lia.
  specialize (IH n). lia.
Qed.

Lemma g_strlcpy_length (s : string) (n : nat) :
  0 < n -> String.length (g_strlcpy s n) < n.
Proof.
  intros H. unfold g_strlcpy.
  pose proof (string_take_length (n - 1) s). lia.
Qed.

Lemma g_strlcpy_fits (s : string) (n : nat) :
  String.length s < n -> g_strlcpy s n = s.
Proof.
  intros H. unfold g_strlcpy. apply string_take_all. lia.
Qed.

(** A uuid shorter than the header field is copied whole. *)
Lemma header_uuid_whole (size fl : Z) (u : string) :
  String.length u < DM_UUID_LEN ->
  hdr_uuid (dm_set_header size fl u) = u.
Proof.
  intros H. cbn [hdr_uuid dm_set_header]. now apply g_strlcpy_fits.
Qed.

Lemma string_compare_refl (s : string) : String.compare s s = Eq.
Proof.
  pose proof (String.compare_antisym s s) as H.
  destruct (String.compare s s); cbn in H; try reflexivity; discriminate.
Qed.

Lemma g_strcmp0_eq (a b : string) : g_strcmp0 a b = 0%Z <-> a = b.
Proof.
  unfold g_strcmp0. split.
  - destruct (String.compare a b) eqn:E; try discriminate.
    intros _. now apply String.compare_eq_iff.
  - intros <-. now rewrite string_compare_refl.
Qed.

Lemma g_strcmp0_eqb_true (a b : string) :
  (g_strcmp0 a b =? 0)%Z = true <-> a = b.
Proof. rewrite Z.eqb_eq. apply g_strcmp0_eq. Qed.

Lemma g_strcmp0_eqb_false (a b : string) :
  (g_strcmp0 a b =? 0)%Z = false <-> a <> b.
Proof. rewrite Z.eqb_neq, g_strcmp0_eq. reflexivity. Qed.




(** ** Every call is one of the listed runs *)

Section Execution.

Context {Host : Type}.
Variable host_step : Host -> syscall -> sysret * Host.
Variable g_strerror : Z -> string.

Ltac unfold_code :=
  cbv beta iota zeta delta
    [bind pure gets modify goto return_ when labelled call
     g_return_val_if_fail initial_state is_null negb andb app
     setup_fn setup_guards setup_body setup_at setup_at_out
     setup_at_out_remove_dm remove_fn remove_guards remove_body
     remove_at_out g_snprintf setup_zero
     do_syscall g_set_error g_message g_log g_close ioctl_setup
     ioctl_header set_header set_target_spec set_params
     set_res set_dmfd set_checkfd set_setup set_dm_verity set_error
     after_syscall add_log
     res dmfd checkfd setup dm_verity error errno host trace
     header target_spec params
     uuid lower_dev upper_dev data_size root_digest salt set_upper_dev str].

Ltac norm :=
  unfold_code;
  try (progress change ((-1 >=? 0)%Z) with false; unfold_code).

Ltac cond_prop E :=
  first
    [ apply Z.ltb_lt in E
    | apply Z.ltb_ge in E
    | apply Z.geb_le in E
    | rewrite Z.geb_leb in E; apply Z.leb_gt in E
    | apply g_strcmp0_eqb_true in E
    | apply g_strcmp0_eqb_false in E
    | apply Z.eqb_eq in E
    | apply Z.eqb_neq in E ].

Ltac exec1 :=
  match goal with
  | |- context [host_step ?h ?c] =>
      let r := fresh "r" in
      let h' := fresh "h" in
      let E := fresh "Estep" in
      destruct (host_step h c) as [r h'] eqn:E; clear E
  | |- context [if ?b then _ else _] =>
      let E := fresh "Econd" in
      destruct b eqn:E; cond_prop E; try (exfalso; lia)
  end; norm.

Lemma setup_run_as (d : RaucDMVerity) (e : error_loc) (R R' : result Host) :
  setup_run g_strerror d e R' -> R' = R -> setup_run g_strerror d e R.
Proof. intros H <-. exact H. Qed.

Lemma remove_run_as (d : RaucDMVerity) (b : gboolean) (e : error_loc)
  (R R' : result Host) :
  remove_run g_strerror d b e R' -> R' = R -> remove_run g_strerror d b e R.
Proof. intros H <-. exact H. Qed.

Ltac expand_formats :=
  unfold g_strdup_printf; cbn [vprintf]; rewrite ?string_app_nil_r.

Ltac trace_eq :=
  repeat first
    [ reflexivity
    | apply (f_equal2 (@cons event)); [reflexivity |]
    | match goal with
      | |- context [if (?x =? 0)%Z then _ else _] =>
          destruct (Z.eqb_spec x 0); [| exfalso; lia]
      | |- context [if (?x =? 0)%Z then _ else _] =>
          destruct (Z.eqb_spec x 0); [exfalso; lia |]
      end ].

Ltac same_result :=
  apply f_equal5; [reflexivity | reflexivity | reflexivity | | reflexivity];
  unfold upto_status, upto_probe_read, upto_probe_open, upto_resume,
    upto_load, upto_create, upto_open, rollback, close;
  cbn [app];
  trace_eq.

Ltac setup_leaf use :=
  eapply setup_run_as; [use; shelve | same_result].

Ltac remove_leaf use :=
  eapply remove_run_as; [use; shelve | same_result].

Lemma setup_dm_verity_runs (d : RaucDMVerity) (e : error_loc) (h : Host) :
  setup_guards_hold d e ->
  setup_run g_strerror d e
    (setup_dm_verity host_step g_strerror (Some d) e h).
Proof.
  intros (Hup & Hu & Hl & Hpos & Hmod & Hr & Hs & He).
  destruct d as [u l up ds rd sa]; cbn in Hup, Hu, Hl, Hpos, Hmod, Hr, Hs.
  destruct u as [u|]; [|congruence].
  destruct l as [l|]; [|congruence].
  destruct rd as [rd|]; [|congruence].
  destruct sa as [sa|]; [|congruence].
  subst up.
  apply N.ltb_lt in Hpos. apply N.eqb_eq in Hmod.
  unfold setup_dm_verity. norm. rewrite Hpos, Hmod, He. norm.
  repeat exec1.
  all: expand_formats.
  all: first
    [ setup_leaf ltac:(eapply run_open_failed)
    | setup_leaf ltac:(eapply run_create_failed)
    | setup_leaf ltac:(eapply run_format_failed)
    | setup_leaf ltac:(eapply run_load_failed)
    | setup_leaf ltac:(eapply run_resume_failed)
    | setup_leaf ltac:(eapply run_probe_open_failed)
    | setup_leaf ltac:(eapply run_probe_read_failed)
    | setup_leaf ltac:(eapply run_status_failed)
    | setup_leaf ltac:(eapply run_status_unexpected)
    | setup_leaf ltac:(eapply run_success) ].
  Unshelve.
  all: first [assumption | lia].
Qed.

Lemma remove_dm_verity_runs (d : RaucDMVerity) (deferred : gboolean)
  (e : error_loc) (h : Host) :
  remove_guards_hold d e ->
  remove_run g_strerror d deferred e
    (remove_dm_verity host_step g_strerror (Some d) deferred e h).
Proof.
  intros (Hup & Hu & Hl & Hpos & Hmod & Hr & Hs & He).
  destruct d as [u l up ds rd sa]; cbn in Hup, Hu, Hl, Hpos, Hmod, Hr, Hs.
  destruct u as [u|]; [|congruence].
  destruct l as [l|]; [|congruence].
  destruct up as [up|]; [|congruence].
  destruct rd as [rd|]; [|congruence].
  destruct sa as [sa|]; [|congruence].
  apply N.ltb_lt in Hpos. apply N.eqb_eq in Hmod.
  unfold remove_dm_verity. norm. rewrite Hpos, Hmod, He. norm.
  repeat exec1.
  all: expand_formats.
  all: first
    [ remove_leaf ltac:(eapply rm_open_failed)
    | remove_leaf ltac:(eapply rm_ioctl_failed)
    | remove_leaf ltac:(eapply rm_success) ].
  Unshelve.
  all: first [assumption | lia].
Qed.

Ltac reject_now := solve [eexists; reflexivity].

Ltac refute_rejects H :=
  exfalso; unfold setup_rejects, remove_rejects, fields_missing in H;
  cbn in H;
  repeat match goal with
    | E : (0 <? _)%N = true |- _ => apply N.ltb_lt in E
    | E : (_ =? _)%N = true |- _ => apply N.eqb_eq in E
    end;
  intuition (try discriminate; try congruence; try lia).

Lemma setup_dm_verity_rejects (d : RaucDMVerity) (e : error_loc) (h : Host) :
  setup_rejects d ->
  rejected d e h (setup_dm_verity host_step g_strerror (Some d) e h).
Proof.
  intros H. unfold rejected.
  destruct d as [[u|] [l|] [up|] ds [rd|] [sa|]];
    unfold setup_dm_verity; norm; try reject_now.
  all: destruct (0 <? ds)%N eqn:Hpos; norm; try reject_now.
  all: destruct (ds mod 4096 =? 0)%N eqn:Hmod; norm; try reject_now.
  all: refute_rejects H.
Qed.

Lemma remove_dm_verity_rejects (d : RaucDMVerity) (deferred : gboolean)
  (e : error_loc) (h : Host) :
  remove_rejects d ->
  rejected d e h (remove_dm_verity host_step g_strerror (Some d) deferred e h).
Proof.
  intros H. unfold rejected.
  destruct d as [[u|] [l|] [up|] ds [rd|] [sa|]];
    unfold remove_dm_verity; norm; try reject_now.
  all: destruct (0 <? ds)%N eqn:Hpos; norm; try reject_now.
  all: destruct (ds mod 4096 =? 0)%N eqn:Hmod; norm; try reject_now.
  all: refute_rejects H.
Qed.

(** X16: [setup_dm_verity] never looks at the error location beyond the
    guard: with [error == NULL] it returns the same value, leaves the same device,
    issues the same events and leaves the host in the same state as with
    an empty location. *)
Lemma setup_with_null_error (d : RaucDMVerity) (h : Host) :
  setup_dm_verity host_step g_strerror (Some d) None h =
  with_error None (setup_dm_verity host_step g_strerror (Some d) (Some None) h).
Proof.
  unfold with_error.
  destruct d as [[u|] [l|] [up|] ds [rd|] [sa|]];
    unfold setup_dm_verity; norm; try reflexivity.
  all: destruct (0 <? ds)%N eqn:Hpos; norm; try reflexivity.
  all: destruct (ds mod 4096 =? 0)%N eqn:Hmod; norm; try reflexivity.
  all: cbn [error_loc_clear]; norm.
  all: repeat exec1.
  all: reflexivity.
Qed.

(** X17: [remove_dm_verity] with [error == NULL] likewise returns the same
    value, leaves the same device, issues the same events and leaves the
    host in the same state as with an empty location. *)
Lemma remove_with_null_error (d : RaucDMVerity) (deferred : gboolean)
  (h : Host) :
  remove_dm_verity host_step g_strerror (Some d) deferred None h =
  with_error None
    (remove_dm_verity host_step g_strerror (Some d) deferred (Some None) h).
Proof.
  unfold with_error.
  destruct d as [[u|] [l|] [up|] ds [rd|] [sa|]];
    unfold remove_dm_verity; norm; try reflexivity.
  all: destruct (0 <? ds)%N eqn:Hpos; norm; try reflexivity.
  all: destruct (ds mod 4096 =? 0)%N eqn:Hmod; norm; try reflexivity.
  all: cbn [error_loc_clear]; norm.
  all: repeat exec1.
  all: reflexivity.
Qed.

(** A location that already holds an error fails the last guard. *)
Lemma setup_dm_verity_rejects_error (d : RaucDMVerity) (e0 : GError)
  (h : Host) :
  rejected d (Some (Some e0)) h
    (setup_dm_verity host_step g_strerror (Some d) (Some (Some e0)) h).
Proof.
  unfold rejected.
  destruct d as [[u|] [l|] [up|] ds [rd|] [sa|]];
    unfold setup_dm_verity; norm; try reject_now.
  all: destruct (0 <? ds)%N eqn:Hpos; norm; try reject_now.
  all: destruct (ds mod 4096 =? 0)%N eqn:Hmod; norm; try reject_now.
  all: cbn [error_loc_clear]; norm; reject_now.
Qed.

Lemma remove_dm_verity_rejects_error (d : RaucDMVerity)
  (deferred : gboolean) (e0 : GError) (h : Host) :
  rejected d (Some (Some e0)) h
    (remove_dm_verity host_step g_strerror (Some d) deferred
       (Some (Some e0)) h).
Proof.
  unfold rejected.
  destruct d as [[u|] [l|] [up|] ds [rd|] [sa|]];
    unfold remove_dm_verity; norm; try reject_now.
  all: destruct (0 <? ds)%N eqn:Hpos; norm; try reject_now.
  all: destruct (ds mod 4096 =? 0)%N eqn:Hmod; norm; try reject_now.
  all: cbn [error_loc_clear]; norm; reject_now.
Qed.

End Execution.

(** ** The claims, for every host *)

Section Claims.

Context {Host : Type}.
Variable host_step : Host -> syscall -> sysret * Host.
Variable g_strerror : Z -> string.

Local Notation "'setup_call' d e h" :=
  (setup_dm_verity host_step g_strerror (Some d) e h)
  (at level 10, d at level 9, e at level 9, h at level 9).
Local Notation "'remove_call' d b e h" :=
  (remove_dm_verity host_step g_strerror (Some d) b e h)
  (at level 10, d at level 9, b at level 9, e at level 9, h at level 9).

Ltac unfold_trace :=
  unfold upto_status, upto_probe_read, upto_probe_open, upto_resume,
    upto_load, upto_create, upto_open, rollback, close, control_open,
    create_request, load_request, resume_request, probe_open, probe_read,
    status_request, rollback_request, remove_request in *;
  cbn [app] in *.

(** The cases of a call of [setup_dm_verity] whose guards hold. *)
Ltac setup_cases d e h Hg :=
  let Hrun := fresh "Hrun" in
  let R := fresh "R" in
  let ER := fresh "ER" in
  pose proof (setup_dm_verity_runs host_step g_strerror d e h Hg) as Hrun;
  remember (setup_call d e h) as R eqn:ER; clear ER;
  destruct Hrun;
  cbn [r_ret r_dev r_error r_trace r_host] in *.

Ltac remove_cases d b e h Hg :=
  let Hrun := fresh "Hrun" in
  let R := fresh "R" in
  let ER := fresh "ER" in
  pose proof (remove_dm_verity_runs host_step g_strerror d b e h Hg) as Hrun;
  remember (remove_call d b e h) as R eqn:ER; clear ER;
  destruct Hrun;
  cbn [r_ret r_dev r_error r_trace r_host] in *.

Ltac split_rollback :=
  repeat match goal with
    | H : context [if (rv ?r =? 0)%Z then _ else _] |- _ =>
        destruct (Z.eqb_spec (rv r) 0)
    | |- context [if (rv ?r =? 0)%Z then _ else _] =>
        destruct (Z.eqb_spec (rv r) 0)
    end.

(** A hypothesis [injected s t] over an explicit trace, as a proposition
    about the answers. *)
Ltac read_injected H :=
  unfold injected in H; unfold_trace; split_rollback;
  cbn [existsb fails_at app] in H;
  rewrite ?Z.eqb_refl in H;
  try change ((Z.lor O_RDWR O_CLOEXEC =? Z.lor O_RDONLY O_CLOEXEC)%Z)
    with false in H;
  cbn [andb orb negb] in H;
  rewrite ?orb_false_r, ?orb_false_l in H;
  rewrite ?orb_true_iff, ?andb_true_iff, ?negb_true_iff,
    ?Z.eqb_neq, ?Z.eqb_eq, ?Z.ltb_lt, ?String.eqb_neq in H.

Ltac absurd_case :=
  solve [exfalso; intuition (try discriminate; try lia; try congruence)].

(** C3: when the create request fails, the call reports the create error
    and returns at once: the only request after it closes the control
    node, and no removal is issued. *)
Theorem create_failure_stops (d : RaucDMVerity) (e : error_loc) (h : Host) :
  setup_guards_hold d e ->
  injected StepCreate (r_trace (setup_call d e h)) ->
  exists r1 r2 rc,
    r_trace (setup_call d e h) =
      [EvSys control_open r1;
       EvSys (create_request d (rv r1)) r2;
       EvSys (SysClose (rv r1)) rc] /\
    rv r2 <> 0%Z /\
    r_ret (setup_call d e h) = FALSE /\
    r_error (setup_call d e h) =
      store_error e
        (file_error ("Failed to create dm device: " ++ g_strerror (err r2))) /\
    r_dev (setup_call d e h) = Some d /\
    count_events (is_ioctl DM_DEV_REMOVE) (r_trace (setup_call d e h)) = 0.
Proof.
  intros Hg Hinj.
  setup_cases d e h Hg; read_injected Hinj; try absurd_case.
  exists r1, r2, rc. repeat split; auto.
Qed.

(** Facts about the events of an explicit trace. *)
Ltac read_in H :=
  unfold_trace; split_rollback; cbn [In app] in H;
  repeat match goal with
    | H' : _ \/ _ |- _ => destruct H'
    | H' : False |- _ => destruct H'
    | H' : EvSys _ _ = EvSys _ _ |- _ =>
        first [discriminate H' | inversion H'; subst; clear H']
    | H' : EvLog _ _ = EvSys _ _ |- _ => discriminate H'
    end.

Ltac each_event :=
  let ev := fresh "ev" in
  let Hin := fresh "Hin" in
  let Hev := fresh "Hev" in
  intros ev Hin Hev; cbn [In app] in Hin;
  repeat match goal with
    | H' : _ \/ _ |- _ => destruct H'
    | H' : False |- _ => destruct H'
    end;
  subst; cbn [is_ioctl dm_cmd_eqb] in Hev;
  first [discriminate Hev | reflexivity].

(** C2, as the code has it: a failure injected at load-table, activate,
    probe-open, probe-read or the status check (query or value) makes the
    call fail after exactly one removal request, which carries the
    device's uuid as [g_strlcpy] copies it into the header, and the
    message reported is the one of the failed step; a failure injected at
    create makes the call fail with the create message and no removal
    request at all. *)
Theorem failure_rolls_back (d : RaucDMVerity) (e : error_loc) (h : Host)
  (s : step) :
  setup_guards_hold d e ->
  injected s (r_trace (setup_call d e h)) ->
  r_ret (setup_call d e h) = FALSE /\
  count_events (is_ioctl DM_DEV_REMOVE) (r_trace (setup_call d e h))
    = rollbacks_after s /\
  (forall ev, In ev (r_trace (setup_call d e h)) ->
     is_ioctl DM_DEV_REMOVE ev = true ->
     remove_uuid ev = Some (g_strlcpy (str (uuid d)) DM_UUID_LEN)) /\
  exists detail,
    r_error (setup_call d e h)
      = store_error e (file_error (step_message s ++ detail)).
Proof.
  intros Hg Hinj.
  destruct s; setup_cases d e h Hg; read_injected Hinj; try absurd_case.
  all: split; [reflexivity |].
  all: split; [reflexivity |].
  all: split; [each_event |].
  all: eexists; cbn [step_message]; unfold upper_dev_of; reflexivity.
Qed.

(** A successful call leaves [upper_dev] set. *)
Lemma setup_success_sets_upper_dev (d : RaucDMVerity) (e : error_loc)
  (h : Host) :
  setup_guards_hold d e ->
  r_ret (setup_call d e h) = TRUE ->
  upper_dev_after (setup_call d e h) <> None.
Proof.
  intros Hg Hret.
  setup_cases d e h Hg; try discriminate Hret.
  cbn. discriminate.
Qed.

(** X18: a failed call leaves [upper_dev] set exactly when the resume
    request had succeeded: the jump to [out_remove_dm] does not clear it. *)
Lemma setup_failure_upper_dev (d : RaucDMVerity) (e : error_loc) (h : Host) :
  setup_guards_hold d e ->
  r_ret (setup_call d e h) = FALSE ->
  (upper_dev_after (setup_call d e h) <> None <->
   exists fd hdr pl r,
     In (EvSys (SysIoctl fd DM_DEV_SUSPEND hdr pl) r)
        (r_trace (setup_call d e h)) /\ rv r = 0%Z).
Proof.
  intros Hg Hret.
  pose proof Hg as (Hup & _).
  setup_cases d e h Hg; try discriminate Hret.
  all: unfold upper_dev_after, activated; cbn [r_dev upper_dev set_upper_dev].
  all: split;
    [ intros Hnn; try congruence
    | intros (fd & hdr & pl & r & Hin & Hrv); try discriminate;
      read_in Hin; try congruence; try lia ].
  all: unfold_trace; do 4 eexists.
  all: split; [cbn [In app]; do 3 right; left; reflexivity | assumption].
Qed.


(** C5: the status check accepts the string ["V"] and nothing else.  For
    the status string [s] the host returned: the call succeeds only if
    [s] is ["V"]; any other [s] makes it fail after one removal request
    (with the unexpected-status message when the query itself
    succeeded); and ["V"] from a successful query makes it succeed, with
    no rollback. *)
Theorem status_must_be_V (d : RaucDMVerity) (e : error_loc) (h : Host)
  (fd : Z) (hdr : dm_ioctl) (pl : option (dm_target_spec * string))
  (r : sysret) :
  setup_guards_hold d e ->
  In (EvSys (SysIoctl fd DM_TABLE_STATUS hdr pl) r)
     (r_trace (setup_call d e h)) ->
  (r_ret (setup_call d e h) = TRUE -> params (arg_out r) = "V") /\
  (params (arg_out r) <> "V" ->
     r_ret (setup_call d e h) = FALSE /\
     count_events (is_ioctl DM_DEV_REMOVE) (r_trace (setup_call d e h)) = 1 /\
     (rv r = 0%Z ->
      r_error (setup_call d e h) =
        store_error e
          (file_error ("Unexpected dm-verity status '" ++ params (arg_out r)
                         ++ "' (instead of 'V')")))) /\
  (rv r = 0%Z -> params (arg_out r) = "V" ->
     r_ret (setup_call d e h) = TRUE /\
     count_events (is_ioctl DM_DEV_REMOVE) (r_trace (setup_call d e h)) = 0).
Proof.
  intros Hg Hin.
  setup_cases d e h Hg; read_in Hin.
  all: repeat split; intros; try reflexivity; try congruence;
    try discriminate; try contradiction.
Qed.


(** C8: once the resume request has succeeded, [upper_dev] is
    ["/dev/dm-<minor>"], the minor number being that of the device number
    in the answer to that request. *)
Theorem upper_dev_from_minor (d : RaucDMVerity) (e : error_loc) (h : Host)
  (fd : Z) (hdr : dm_ioctl) (pl : option (dm_target_spec * string))
  (r : sysret) :
  setup_guards_hold d e ->
  In (EvSys (SysIoctl fd DM_DEV_SUSPEND hdr pl) r)
     (r_trace (setup_call d e h)) ->
  rv r = 0%Z ->
  upper_dev_after (setup_call d e h) =
    Some ("/dev/dm-" ++ decimal (Z.to_N (minor (dev (header (arg_out r)))))).
Proof.
  intros Hg Hin Hrv.
  setup_cases d e h Hg; read_in Hin; try lia.
  all: reflexivity.
Qed.

(** C9: every table-load request of the call announces one target, of
    type ["verity"], starting at sector 0, whose length is
    [data_size / 512], the size in 512-byte sectors; and the call issues
    at most one such request. *)
Theorem table_target (d : RaucDMVerity) (e : error_loc) (h : Host)
  (fd : Z) (hdr : dm_ioctl) (pl : option (dm_target_spec * string))
  (r : sysret) :
  setup_guards_hold d e ->
  In (EvSys (SysIoctl fd DM_TABLE_LOAD hdr pl) r)
     (r_trace (setup_call d e h)) ->
  target_count hdr = 1%Z /\
  (exists ts p,
     pl = Some (ts, p) /\
     target_type ts = "verity" /\
     sector_start ts = 0%N /\
     length ts = (data_size d / 512)%N /\
     (length ts * 512 = data_size d)%N) /\
  count_events (is_ioctl DM_TABLE_LOAD) (r_trace (setup_call d e h)) = 1.
Proof.
  intros Hg Hin.
  assert (Hsect : (data_size d / 512 * 512 = data_size d)%N).
  { destruct Hg as (_ & _ & _ & _ & Hmod & _).
    pose proof (N.div_mod (data_size d) 4096) as H4.
    remember (data_size d / 4096)%N as q eqn:Hq. clear Hq.
    assert (Hd : data_size d = (q * 8 * 512)%N) by lia.
    rewrite Hd. rewrite N.div_mul by discriminate. reflexivity. }
  setup_cases d e h Hg; read_in Hin.
  all: split; [reflexivity |].
  all: split; [| reflexivity].
  all: do 2 eexists; split; [reflexivity |].
  all: cbn [table_payload fst target_type sector_start length].
  all: repeat split; try reflexivity; exact Hsect.
Qed.


(** C10: a device that fails a guard makes either function return FALSE
    at once: no system call is made, the host is untouched, the device
    and the error location are unchanged.  A call that passes the guards
    and fails reports an error with a message, wherever the caller
    supplied a location for it. *)
Theorem rejected_calls (d : RaucDMVerity) (deferred : gboolean)
  (e : error_loc) (h : Host) :
  (setup_rejects d ->
     r_ret (setup_call d e h) = FALSE /\
     r_dev (setup_call d e h) = Some d /\
     r_error (setup_call d e h) = e /\
     count_events is_syscall (r_trace (setup_call d e h)) = 0 /\
     r_host (setup_call d e h) = h) /\
  (remove_rejects d ->
     r_ret (remove_call d deferred e h) = FALSE /\
     r_dev (remove_call d deferred e h) = Some d /\
     r_error (remove_call d deferred e h) = e /\
     count_events is_syscall (r_trace (remove_call d deferred e h)) = 0 /\
     r_host (remove_call d deferred e h) = h) /\
  (setup_guards_hold d e ->
     r_ret (setup_call d e h) = FALSE ->
     exists msg,
       msg <> EmptyString /\
       r_error (setup_call d e h) = store_error e (file_error msg)) /\
  (remove_guards_hold d e ->
     r_ret (remove_call d deferred e h) = FALSE ->
     exists msg,
       msg <> EmptyString /\
       r_error (remove_call d deferred e h) = store_error e (file_error msg)).
Proof.
  repeat split.
  1-5: destruct (setup_dm_verity_rejects host_step g_strerror d e h H)
         as (msg & ->); reflexivity.
  1-5: destruct (remove_dm_verity_rejects host_step g_strerror d deferred e h H)
         as (msg & ->); reflexivity.
  - intros Hg Hret.
    setup_cases d e h Hg; try discriminate Hret.
    all: eexists; split; [| reflexivity]; discriminate.
  - intros Hg Hret.
    remove_cases d deferred e h Hg; try discriminate Hret.
    all: eexists; split; [| reflexivity]; discriminate.
Qed.

(** ** Further properties of the two functions *)

(** The guards either all hold, or one of the device checks fails, or the
    error location is already taken. *)
Lemma setup_guards_cases (d : RaucDMVerity) (e : error_loc) :
  setup_guards_hold d e \/ setup_rejects d \/ exists e0, e = Some (Some e0).
Proof.
  destruct e as [[e0|]|]; [right; right; eauto | |].
  all: destruct d as [[u|] [l|] [up|] ds [rd|] [sa|]];
    unfold setup_guards_hold, common_guards, setup_rejects, fields_missing;
    cbn.
  all: destruct (N.eq_dec ds 0) as [Hz|Hz];
    destruct (N.eq_dec (ds mod 4096) 0) as [Hm|Hm].
  all: first
    [ solve [left; repeat split; first [discriminate | reflexivity | lia]]
    | solve [right; left;
             intuition (solve [discriminate | congruence | lia | auto])] ].
Qed.

Lemma remove_guards_cases (d : RaucDMVerity) (e : error_loc) :
  remove_guards_hold d e \/ remove_rejects d \/ exists e0, e = Some (Some e0).
Proof.
  destruct e as [[e0|]|]; [right; right; eauto | |].
  all: destruct d as [[u|] [l|] [up|] ds [rd|] [sa|]];
    unfold remove_guards_hold, common_guards, remove_rejects, fields_missing;
    cbn.
  all: destruct (N.eq_dec ds 0) as [Hz|Hz];
    destruct (N.eq_dec (ds mod 4096) 0) as [Hm|Hm].
  all: first
    [ solve [left; repeat split; first [discriminate | reflexivity | lia]]
    | solve [right; left;
             intuition (solve [discriminate | congruence | lia | auto])] ].
Qed.

(** X1: a successful setup leaves a device that passes the guards of
    [remove_dm_verity], with the error location untouched; and a
    successful removal of that device, on any host and in either mode,
    gives back the device as it was before the setup. *)
Theorem setup_remove_round_trip (d : RaucDMVerity) (e : error_loc)
  (h : Host) :
  setup_guards_hold d e ->
  r_ret (setup_call d e h) = TRUE ->
  exists d1,
    r_dev (setup_call d e h) = Some d1 /\
    r_error (setup_call d e h) = e /\
    remove_guards_hold d1 e /\
    forall deferred h2,
      r_ret (remove_call d1 deferred e h2) = TRUE ->
      r_dev (remove_call d1 deferred e h2) = Some d.
Proof.
  intros Hg Hret. pose proof Hg as (Hup & Hc).
  setup_cases d e h Hg; try discriminate Hret.
  assert (Hg1 : remove_guards_hold (activated d r4) e)
    by (split; [cbn; discriminate | exact Hc]).
  exists (activated d r4).
  split; [reflexivity |]. split; [reflexivity |]. split; [exact Hg1 |].
  intros deferred h2 Hret2.
  remove_cases (activated d r4) deferred e h2 Hg1; try discriminate Hret2.
  destruct d as [u l up ds rd sa]. cbn in Hup. subst up. reflexivity.
Qed.

(** X2: every ioctl request of [setup_dm_verity] goes to the descriptor
    the control node was opened on, carries a payload, and has a header
    built afresh: version 4.0.0, the size of the whole structure, the
    offset of the payload, the device's uuid as [g_strlcpy] copies it, and
    flags, name and target count that depend on the command alone (the
    read-only flag on create and load, the name on create, one target on
    load); nothing of an earlier answer is left in a header. *)
Theorem setup_requests_addressed (d : RaucDMVerity) (e : error_loc)
  (h : Host) (fd : Z) (cmd : dm_cmd) (hdr : dm_ioctl)
  (pl : option (dm_target_spec * string)) (r : sysret) :
  setup_guards_hold d e ->
  In (EvSys (SysIoctl fd cmd hdr pl) r) (r_trace (setup_call d e h)) ->
  (exists r1,
     control_opened r1 (r_trace (setup_call d e h)) /\
     fd = rv r1 /\ (0 <= fd)%Z) /\
  hdr = mk_dm_ioctl (DM_VERSION_MAJOR, 0, 0)%Z sizeof_setup sizeof_dm_ioctl
          (setup_target_count cmd) 0 (setup_flags cmd) 0 0 (setup_name cmd)
          (g_strlcpy (str (uuid d)) DM_UUID_LEN) /\
  pl <> None.
Proof.
  intros Hg Hin.
  setup_cases d e h Hg; read_in Hin.
  all: split;
    [ eexists; split;
      [ unfold control_opened; cbn [In app]; left; reflexivity
      | split; [reflexivity | assumption] ]
    | split; [reflexivity | discriminate] ].
Qed.

(** X3: [remove_dm_verity] opens the control node and nothing else, never
    reads, and issues at most one ioctl request: a removal on the control
    descriptor, header only, with the device's uuid, flagged deferred
    exactly when [deferred] is set. *)
Theorem remove_requests (d : RaucDMVerity) (deferred : gboolean)
  (e : error_loc) (h : Host) :
  remove_guards_hold d e ->
  In (ioctl_cmds (r_trace (remove_call d deferred e h)))
     [[]; [DM_DEV_REMOVE]] /\
  count_events is_open (r_trace (remove_call d deferred e h)) = 1 /\
  count_events is_read (r_trace (remove_call d deferred e h)) = 0 /\
  forall fd cmd hdr pl r,
    In (EvSys (SysIoctl fd cmd hdr pl) r)
       (r_trace (remove_call d deferred e h)) ->
    cmd = DM_DEV_REMOVE /\ pl = None /\
    hdr = mk_dm_ioctl (DM_VERSION_MAJOR, 0, 0)%Z sizeof_dm_ioctl
            sizeof_dm_ioctl 0 0
            (if deferred then DM_DEFERRED_REMOVE else 0) 0 0 EmptyString
            (g_strlcpy (str (uuid d)) DM_UUID_LEN) /\
    exists r1,
      control_opened r1 (r_trace (remove_call d deferred e h)) /\
      fd = rv r1 /\ (0 <= fd)%Z.
Proof.
  intros Hg.
  remove_cases d deferred e h Hg.
  all: split; [cbn; tauto |].
  all: split; [reflexivity |].
  all: split; [reflexivity |].
  all: intros fd cmd hdr pl r Hin; read_in Hin.
  all: repeat split; eexists;
    (split; [unfold control_opened; cbn [In app]; left; reflexivity |]);
    split; [reflexivity | assumption].
Qed.

(** An open event of the probe is not the open of the control node. *)
Ltac not_the_probe :=
  try match goal with
    | H : Z.lor O_RDONLY O_CLOEXEC = Z.lor O_RDWR O_CLOEXEC |- _ =>
        vm_compute in H; discriminate H
    | H : Z.lor O_RDWR O_CLOEXEC = Z.lor O_RDONLY O_CLOEXEC |- _ =>
        vm_compute in H; discriminate H
    end.

(** The answers known in a case, as equations on the tests of
    [opened_ok]. *)
Ltac count_opens :=
  unfold_trace; split_rollback; unfold count_events;
  cbn [filter opened_ok is_close app];
  repeat match goal with
    | H : (0 <= rv ?r)%Z |- context [(0 <=? rv ?r)%Z] =>
        rewrite (proj2 (Z.leb_le 0 (rv r)) H)
    | H : (rv ?r < 0)%Z |- context [(0 <=? rv ?r)%Z] =>
        rewrite (proj2 (Z.leb_gt 0 (rv r)) H)
    end;
  reflexivity.

(** X4: [setup_dm_verity] closes what it opened: in every run the close
    requests are as many as the opens that returned a descriptor, each
    closes a descriptor an open of this call returned, and when the
    control node was opened its close is the last event of the call. *)
Theorem setup_descriptors_closed (d : RaucDMVerity) (e : error_loc)
  (h : Host) :
  setup_guards_hold d e ->
  count_events is_close (r_trace (setup_call d e h))
    = count_events opened_ok (r_trace (setup_call d e h)) /\
  (forall fd rc,
     In (EvSys (SysClose fd) rc) (r_trace (setup_call d e h)) ->
     exists path fl r0,
       In (EvSys (SysOpen path fl) r0) (r_trace (setup_call d e h)) /\
       rv r0 = fd /\ (0 <= fd)%Z) /\
  (forall r1,
     control_opened r1 (r_trace (setup_call d e h)) ->
     (0 <= rv r1)%Z ->
     exists t rc,
       r_trace (setup_call d e h)
         = (t ++ [EvSys (SysClose (rv r1)) rc])%list).
Proof.
  intros Hg.
  setup_cases d e h Hg.
  all: split; [count_opens |].
  all: split;
    [ intros fd rc0 Hin; read_in Hin; do 3 eexists;
      (split; [| split; [reflexivity | assumption]]);
      cbn [In app]; repeat first [left; reflexivity | right] |].
  all: intros r0 Hin Hpos; unfold control_opened in Hin;
    read_in Hin; not_the_probe; try lia.
  all: match goal with
       | |- exists t rc, ?l = _ =>
           let n := eval cbv in (Nat.pred (List.length l)) in
           exists (firstn n l); eexists; reflexivity
       end.
Qed.

(** X5: when the control node cannot be opened, [setup_dm_verity] issues
    nothing else (no ioctl, no close), reports the fixed message and
    leaves the device as it was. *)
Theorem setup_control_unavailable (d : RaucDMVerity) (e : error_loc)
  (h : Host) (r1 : sysret) :
  setup_guards_hold d e ->
  control_opened r1 (r_trace (setup_call d e h)) ->
  (rv r1 < 0)%Z ->
  r_trace (setup_call d e h) = [EvSys control_open r1] /\
  r_ret (setup_call d e h) = FALSE /\
  r_error (setup_call d e h) =
    store_error e (file_error "Failed to open /dev/mapper/control") /\
  r_dev (setup_call d e h) = Some d.
Proof.
  intros Hg Hin Hneg. unfold control_opened in Hin.
  setup_cases d e h Hg; read_in Hin; not_the_probe; try lia.
  repeat split.
Qed.

(** X6: whatever the device, the error location and the host, neither
    function touches [uuid], [lower_dev], [data_size], [root_digest] or
    [salt]: only [upper_dev] can differ after a call. *)
Theorem fields_untouched (d : RaucDMVerity) (deferred : gboolean)
  (e : error_loc) (h : Host) :
  (exists d1, r_dev (setup_call d e h) = Some d1 /\ same_identity d d1) /\
  (exists d2,
     r_dev (remove_call d deferred e h) = Some d2 /\ same_identity d d2).
Proof.
  split.
  - destruct (setup_guards_cases d e) as [Hg | [Hrej | (e0 & ->)]].
    + setup_cases d e h Hg.
      all: eexists; split; [reflexivity |]; repeat split.
    + destruct (setup_dm_verity_rejects host_step g_strerror d e h Hrej)
        as (msg & ->).
      eexists; split; [reflexivity |]; repeat split.
    + destruct (setup_dm_verity_rejects_error host_step g_strerror d e0 h)
        as (msg & ->).
      eexists; split; [reflexivity |]; repeat split.
  - destruct (remove_guards_cases d e) as [Hg | [Hrej | (e0 & ->)]].
    + remove_cases d deferred e h Hg.
      all: eexists; split; [reflexivity |]; repeat split.
    + destruct (remove_dm_verity_rejects host_step g_strerror d deferred e h
                  Hrej) as (msg & ->).
      eexists; split; [reflexivity |]; repeat split.
    + destruct (remove_dm_verity_rejects_error host_step g_strerror d
                  deferred e0 h) as (msg & ->).
      eexists; split; [reflexivity |]; repeat split.
Qed.

(** X7: with an empty error location and a device that passes the
    guards, [setup_dm_verity] follows the GError convention: it returns
    TRUE exactly when the location is still empty afterwards, and FALSE
    exactly when the location holds an error. *)
Theorem setup_error_iff_failure (d : RaucDMVerity) (h : Host) :
  setup_guards_hold d (Some None) ->
  (r_ret (setup_call d (Some None) h) = TRUE <->
   r_error (setup_call d (Some None) h) = Some None) /\
  (r_ret (setup_call d (Some None) h) = FALSE <->
   exists er, r_error (setup_call d (Some None) h) = Some (Some er)).
Proof.
  intros Hg.
  setup_cases d (Some (@None GError)) h Hg; cbn [store_error].
  all: split; split; intros Hq;
    try reflexivity; try discriminate Hq; try (eexists; reflexivity).
  all: destruct Hq as (er & Hq); discriminate Hq.
Qed.

(** X8: a rollback removal that fails does not change the outcome of
    [setup_dm_verity]: the failure is logged with the kernel's text, the
    call still returns FALSE, and the error reported is not about the
    removal; a rollback removal that succeeds leaves no log line at
    all. *)
Theorem rollback_failure_is_logged (d : RaucDMVerity) (e : error_loc)
  (h : Host) (fd : Z) (hdr : dm_ioctl)
  (pl : option (dm_target_spec * string)) (r : sysret) :
  setup_guards_hold d e ->
  In (EvSys (SysIoctl fd DM_DEV_REMOVE hdr pl) r)
     (r_trace (setup_call d e h)) ->
  r_ret (setup_call d e h) = FALSE /\
  (forall detail,
     r_error (setup_call d e h)
       <> Some (Some (file_error ("Failed to remove" ++ detail)))) /\
  (rv r <> 0%Z ->
   In (EvLog LogMessage
         ("Failed to remove bad dm-verity device on error: "
            ++ g_strerror (err r)))
      (r_trace (setup_call d e h))) /\
  (rv r = 0%Z ->
   forall lvl msg, ~ In (EvLog lvl msg) (r_trace (setup_call d e h))).
Proof.
  intros Hg Hin. pose proof Hg as (_ & _ & _ & _ & _ & _ & _ & He).
  setup_cases d e h Hg; read_in Hin.
  all: split; [reflexivity |].
  all: split;
    [ intros detail; destruct e as [[?|]|]; cbn in He |- *;
      try discriminate; unfold upper_dev_of; cbn; congruence |].
  all: split; intros Hrv; try contradiction; try congruence.
  all: try (cbn [In app]; tauto).
  all: intros lvl msg Hlog; cbn [In app] in Hlog;
    repeat match goal with
      | H' : _ \/ _ |- _ => destruct H'
      | H' : False |- _ => destruct H'
      | H' : EvSys _ _ = EvLog _ _ |- _ => discriminate H'
      end.
Qed.


(** X9: the ioctl requests of [setup_dm_verity] come in a fixed order:
    create, load, resume, status, each only after the one before, with a
    removal as the last request of every run that got past create and
    failed.  The call succeeds exactly when the four requests were issued
    and no removal followed. *)
Theorem setup_request_order (d : RaucDMVerity) (e : error_loc) (h : Host) :
  setup_guards_hold d e ->
  In (ioctl_cmds (r_trace (setup_call d e h))) setup_sequences /\
  (r_ret (setup_call d e h) = TRUE <->
   ioctl_cmds (r_trace (setup_call d e h))
     = [DM_DEV_CREATE; DM_TABLE_LOAD; DM_DEV_SUSPEND; DM_TABLE_STATUS]).
Proof.
  intros Hg.
  setup_cases d e h Hg; unfold_trace; split_rollback;
    cbn [ioctl_cmds flat_map app].
  all: split; [unfold setup_sequences; cbn [In]; tauto |].
  all: split; intros Hq; try reflexivity; discriminate Hq.
Qed.

(** X10: the probe reads one byte, at most once, and from the node the
    call derived: every read of a call of [setup_dm_verity] asks for one
    byte on a descriptor that a read-only open of the path in [upper_dev]
    returned. *)
Theorem probe_reads_upper_dev (d : RaucDMVerity) (e : error_loc) (h : Host)
  (fd cnt : Z) (r : sysret) :
  setup_guards_hold d e ->
  In (EvSys (SysRead fd cnt) r) (r_trace (setup_call d e h)) ->
  cnt = 1%Z /\
  count_events is_read (r_trace (setup_call d e h)) = 1 /\
  exists p r5,
    upper_dev_after (setup_call d e h) = Some p /\
    In (EvSys (SysOpen p (Z.lor O_RDONLY O_CLOEXEC)) r5)
       (r_trace (setup_call d e h)) /\
    fd = rv r5 /\ (0 <= fd)%Z.
Proof.
  intros Hg Hin.
  setup_cases d e h Hg; read_in Hin.
  all: split; [reflexivity |].
  all: split; [reflexivity |].
  all: do 2 eexists; split; [reflexivity |].
  all: split; [| split; [reflexivity | assumption]].
  all: cbn [In app]; do 4 right; left; reflexivity.
Qed.


(** X12: what a second call finds.  After a call of [setup_dm_verity]
    that left [upper_dev] NULL the device is exactly as before, so the call
    can be repeated; after a call that left [upper_dev] set, whether it
    succeeded or failed past the resume request, the device passes the
    guards of [remove_dm_verity], and a further [setup_dm_verity] on it is
    turned away by the guard without a single system call. *)
Theorem setup_again (d : RaucDMVerity) (e : error_loc) (h : Host) :
  setup_guards_hold d e ->
  exists d1,
    r_dev (setup_call d e h) = Some d1 /\
    (upper_dev d1 = None -> d1 = d) /\
    (upper_dev d1 <> None ->
     remove_guards_hold d1 e /\
     forall e2 h2,
       r_ret (setup_call d1 e2 h2) = FALSE /\
       count_events is_syscall (r_trace (setup_call d1 e2 h2)) = 0 /\
       r_dev (setup_call d1 e2 h2) = Some d1 /\
       r_error (setup_call d1 e2 h2) = e2).
Proof.
  intros Hg. pose proof Hg as (Hup & Hc).
  setup_cases d e h Hg.
  all: eexists; split; [reflexivity |].
  all: split; [intros Hnone; try reflexivity; try discriminate Hnone |].
  all: intros Hset; try congruence.
  all: split; [split; [exact Hset | exact Hc] |].
  all: intros e2 h2.
  all: destruct (setup_dm_verity_rejects host_step g_strerror
                   (activated d r4) e2 h2 (or_introl Hset)) as (msg & ->).
  all: repeat split.
Qed.

(** X13: an error location that already holds an error makes both
    functions return FALSE at the guard: no system call is made, the host
    and the device are untouched, and the error already there is kept. *)
Theorem pending_error_rejected (d : RaucDMVerity) (deferred : gboolean)
  (e0 : GError) (h : Host) :
  (r_ret (setup_call d (Some (Some e0)) h) = FALSE /\
   r_error (setup_call d (Some (Some e0)) h) = Some (Some e0) /\
   r_dev (setup_call d (Some (Some e0)) h) = Some d /\
   count_events is_syscall (r_trace (setup_call d (Some (Some e0)) h)) = 0 /\
   r_host (setup_call d (Some (Some e0)) h) = h) /\
  (r_ret (remove_call d deferred (Some (Some e0)) h) = FALSE /\
   r_error (remove_call d deferred (Some (Some e0)) h) = Some (Some e0) /\
   r_dev (remove_call d deferred (Some (Some e0)) h) = Some d /\
   count_events is_syscall
     (r_trace (remove_call d deferred (Some (Some e0)) h)) = 0 /\
   r_host (remove_call d deferred (Some (Some e0)) h) = h).
Proof.
  split.
  - destruct (setup_dm_verity_rejects_error host_step g_strerror d e0 h)
      as (msg & ->).
    repeat split.
  - destruct (remove_dm_verity_rejects_error host_step g_strerror d deferred
                e0 h) as (msg & ->).
    repeat split.
Qed.

(** X14: a device fresh from [new_dm_verity], whatever uuid it drew, is
    turned away by both functions before any system call: it has no
    backing device, size, digest or salt yet, and is not active. *)
Theorem fresh_device_rejected (random_uuid : string) (deferred : gboolean)
  (e : error_loc) (h : Host) :
  (r_ret (setup_call (new_dm_verity random_uuid) e h) = FALSE /\
   count_events is_syscall
     (r_trace (setup_call (new_dm_verity random_uuid) e h)) = 0 /\
   r_dev (setup_call (new_dm_verity random_uuid) e h)
     = Some (new_dm_verity random_uuid) /\
   r_error (setup_call (new_dm_verity random_uuid) e h) = e) /\
  (r_ret (remove_call (new_dm_verity random_uuid) deferred e h) = FALSE /\
   count_events is_syscall
     (r_trace (remove_call (new_dm_verity random_uuid) deferred e h)) = 0 /\
   r_dev (remove_call (new_dm_verity random_uuid) deferred e h)
     = Some (new_dm_verity random_uuid) /\
   r_error (remove_call (new_dm_verity random_uuid) deferred e h) = e).
Proof.
  assert (Hmiss : fields_missing (new_dm_verity random_uuid))
    by (left; reflexivity).
  split.
  - destruct (setup_dm_verity_rejects host_step g_strerror
                (new_dm_verity random_uuid) e h (or_intror Hmiss))
      as (msg & ->).
    repeat split.
  - destruct (remove_dm_verity_rejects host_step g_strerror
                (new_dm_verity random_uuid) deferred e h (or_intror Hmiss))
      as (msg & ->).
    repeat split.
Qed.

(** X15: the strings [setup_dm_verity] writes into the fixed fields of a
    request always fit them, however long the device's own strings are:
    the uuid stays under 129 characters and the name under 128 in every
    request, and in a table-load request the target type stays under 16
    and the parameter string under 1024. *)
Theorem request_strings_fit (d : RaucDMVerity) (e : error_loc) (h : Host)
  (fd : Z) (cmd : dm_cmd) (hdr : dm_ioctl)
  (pl : option (dm_target_spec * string)) (r : sysret) :
  setup_guards_hold d e ->
  In (EvSys (SysIoctl fd cmd hdr pl) r) (r_trace (setup_call d e h)) ->
  String.length (hdr_uuid hdr) < DM_UUID_LEN /\
  String.length (name hdr) < DM_NAME_LEN /\
  (cmd = DM_TABLE_LOAD ->
   exists ts p,
     pl = Some (ts, p) /\
     String.length (target_type ts) < DM_MAX_TYPE_NAME /\
     String.length p < sizeof_params).
Proof.
  intros Hg Hin.
  assert (Hu : String.length (g_strlcpy (str (uuid d)) DM_UUID_LEN)
               < DM_UUID_LEN)
    by (apply g_strlcpy_length; unfold DM_UUID_LEN; lia).
  assert (Hp : String.length (string_take (sizeof_params - 1) (param_string d))
               < sizeof_params)
    by (pose proof (string_take_length (sizeof_params - 1) (param_string d));
        unfold sizeof_params in *; lia).
  setup_cases d e h Hg; read_in Hin.
  all: split; [exact Hu |].
  all: split; [apply Nat.ltb_lt; reflexivity |].
  all: intros Hcmd; try discriminate Hcmd.
  all: do 2 eexists; split; [reflexivity |].
  all: split; [apply Nat.ltb_lt; reflexivity | exact Hp].
Qed.

End Claims.

(** ** The claims on the scripted host *)

Ltac guards_evident :=
  unfold setup_guards_hold, remove_guards_hold, common_guards; cbn;
  repeat split; try discriminate; reflexivity.

Lemma example_dev_guards : setup_guards_hold example_dev (Some None).
Proof. guards_evident. Defined.

Lemma active_dev_guards : remove_guards_hold active_dev (Some None).
Proof. guards_evident. Defined.

(** C1, at a failing input: the device passes the guards, the host fails
    the probe open after a successful resume; the call returns FALSE after
    one removal request, and [upper_dev] still names the removed node. *)
Theorem failed_setup_leaves_upper_dev :
  setup_guards_hold example_dev (Some None) /\
  injected StepProbeOpen (r_trace (run_setup example_dev probe_open_fails)) /\
  r_ret (run_setup example_dev probe_open_fails) = FALSE /\
  count_events (is_ioctl DM_DEV_REMOVE)
    (r_trace (run_setup example_dev probe_open_fails)) = 1 /\
  upper_dev_after (run_setup example_dev probe_open_fails)
    = Some "/dev/dm-5".
Proof.
  split; [exact example_dev_guards |].
  vm_compute. repeat split.
Qed.

(** C2 as stated fails at create: the create request is failed by the
    host, and the call issues no removal request, not one. *)
Lemma create_failure_has_no_rollback :
  setup_guards_hold example_dev (Some None) /\
  injected StepCreate (r_trace (run_setup example_dev create_fails)) /\
  count_events (is_ioctl DM_DEV_REMOVE)
    (r_trace (run_setup example_dev create_fails)) <> 1.
Proof.
  split; [exact example_dev_guards |].
  vm_compute. split; [reflexivity | discriminate].
Qed.

Lemma failure_rolls_back_witness :
  setup_guards_hold example_dev (Some None) /\
  injected StepLoadTable (r_trace (run_setup example_dev load_fails)) /\
  r_ret (run_setup example_dev load_fails) = FALSE /\
  count_events (is_ioctl DM_DEV_REMOVE)
    (r_trace (run_setup example_dev load_fails)) = 1.
Proof.
  assert (Hi : injected StepLoadTable
                 (r_trace (run_setup example_dev load_fails)))
    by (vm_compute; reflexivity).
  pose proof (failure_rolls_back script_step strerror_table example_dev
              (Some None) load_fails StepLoadTable example_dev_guards Hi)
    as (Hret & Hcount & _).
  split; [exact example_dev_guards |].
  split; [exact Hi |].
  split; [exact Hret | exact Hcount].
Defined.

Lemma create_failure_stops_witness :
  setup_guards_hold example_dev (Some None) /\
  injected StepCreate (r_trace (run_setup example_dev create_fails)) /\
  r_ret (run_setup example_dev create_fails) = FALSE /\
  count_events (is_ioctl DM_DEV_REMOVE)
    (r_trace (run_setup example_dev create_fails)) = 0.
Proof.
  assert (Hi : injected StepCreate
                 (r_trace (run_setup example_dev create_fails)))
    by (vm_compute; reflexivity).
  pose proof (create_failure_stops script_step strerror_table example_dev
              (Some None) create_fails example_dev_guards Hi)
    as (r1 & r2 & rc & _ & _ & Hret & _ & _ & Hcount).
  split; [exact example_dev_guards |].
  split; [exact Hi |].
  split; [exact Hret | exact Hcount].
Defined.


Lemma status_must_be_V_witness :
  setup_guards_hold example_dev (Some None) /\
  In (EvSys (status_request example_dev 3 resume_ok) (status_answer "C"))
     (r_trace (run_setup example_dev (status_is "C"))) /\
  r_ret (run_setup example_dev (status_is "C")) = FALSE /\
  count_events (is_ioctl DM_DEV_REMOVE)
    (r_trace (run_setup example_dev (status_is "C"))) = 1.
Proof.
  assert (Hin : In (EvSys (status_request example_dev 3 resume_ok)
                      (status_answer "C"))
                  (r_trace (run_setup example_dev (status_is "C"))))
    by (vm_compute; do 6 right; left; reflexivity).
  pose proof (status_must_be_V script_step strerror_table example_dev
              (Some None) (status_is "C") _ _ _ _ example_dev_guards Hin)
    as (_ & Hother & _).
  destruct Hother as (Hret & Hcount & _); [discriminate |].
  split; [exact example_dev_guards |].
  split; [exact Hin |].
  split; [exact Hret | exact Hcount].
Defined.




Lemma upper_dev_from_minor_witness :
  setup_guards_hold example_dev (Some None) /\
  In (EvSys (resume_request example_dev 3 (answer 0 0)) resume_ok)
     (r_trace (run_setup example_dev all_good)) /\
  rv resume_ok = 0%Z /\
  upper_dev_after (run_setup example_dev all_good) = Some "/dev/dm-5".
Proof.
  assert (Hin : In (EvSys (resume_request example_dev 3 (answer 0 0)) resume_ok)
                  (r_trace (run_setup example_dev all_good)))
    by (vm_compute; do 3 right; left; reflexivity).
  split; [exact example_dev_guards |].
  split; [exact Hin |].
  split; [reflexivity |].
  exact (upper_dev_from_minor script_step strerror_table example_dev
           (Some None) all_good _ _ _ _ example_dev_guards Hin eq_refl).
Defined.

Lemma table_target_witness :
  setup_guards_hold example_dev (Some None) /\
  In (EvSys (load_request example_dev 3 (answer 0 0)) (answer 0 0))
     (r_trace (run_setup example_dev all_good)) /\
  count_events (is_ioctl DM_TABLE_LOAD)
    (r_trace (run_setup example_dev all_good)) = 1.
Proof.
  assert (Hin : In (EvSys (load_request example_dev 3 (answer 0 0))
                      (answer 0 0))
                  (r_trace (run_setup example_dev all_good)))
    by (vm_compute; do 2 right; left; reflexivity).
  split; [exact example_dev_guards |].
  split; [exact Hin |].
  exact (proj2 (proj2 (table_target script_step strerror_table example_dev
                         (Some None) all_good _ _ _ _ example_dev_guards Hin))).
Defined.

(** ** Further checks on the scripted host *)

(** All requests answered well: the call succeeds and names the node. *)
Example setup_succeeds :
  r_ret (run_setup example_dev all_good) = TRUE /\
  upper_dev_after (run_setup example_dev all_good) = Some "/dev/dm-5" /\
  r_error (run_setup example_dev all_good) = Some None.
Proof. vm_compute. repeat split. Qed.

(** The status strings ["C"], [""] and ["V "] are all refused. *)
Example status_C_refused :
  r_error (run_setup example_dev (status_is "C"))
    = Some (Some (file_error
                    "Unexpected dm-verity status 'C' (instead of 'V')")).
Proof. vm_compute. reflexivity. Qed.

Example status_empty_refused :
  r_error (run_setup example_dev (status_is ""))
    = Some (Some (file_error
                    "Unexpected dm-verity status '' (instead of 'V')")).
Proof. vm_compute. reflexivity. Qed.

Example status_V_space_refused :
  r_error (run_setup example_dev (status_is "V "))
    = Some (Some (file_error
                    "Unexpected dm-verity status 'V ' (instead of 'V')")).
Proof. vm_compute. reflexivity. Qed.

(** The edge of the buffer: 1023 characters are formatted and loaded, 1024
    are refused. *)
Example params_1023_fit :
  String.length (param_string dev_1023) = 1023 /\
  r_ret (run_setup dev_1023 all_good) = TRUE.
Proof. vm_compute. split; reflexivity. Qed.

Example params_1024_overflow :
  String.length (param_string dev_1024) = 1024 /\
  r_error (run_setup dev_1024 all_good)
    = Some (Some (file_error "Failed to generate dm parameter string")).
Proof. vm_compute. split; reflexivity. Qed.

(** A removal that the host refuses leaves the device active and reports
    the kernel's text. *)
Example remove_refused :
  r_ret (run_remove active_dev false remove_ioctl_fails) = FALSE /\
  r_dev (run_remove active_dev false remove_ioctl_fails) = Some active_dev /\
  r_error (run_remove active_dev false remove_ioctl_fails)
    = Some (Some (file_error
                    "Failed to remove dm device: Device or resource busy")).
Proof. vm_compute. repeat split. Qed.

(** A deferred removal carries the deferred-removal flag. *)
Example deferred_flag :
  forall fd, flags (match remove_request active_dev true fd with
                    | SysIoctl _ _ hdr _ => hdr
                    | _ => dm_ioctl_zero
                    end) = DM_DEFERRED_REMOVE.
Proof. reflexivity. Qed.

(** ** The further properties on the scripted host *)

Lemma setup_remove_round_trip_witness :
  setup_guards_hold example_dev (Some None) /\
  r_ret (run_setup example_dev all_good) = TRUE /\
  exists d1,
    r_dev (run_setup example_dev all_good) = Some d1 /\
    remove_guards_hold d1 (Some None) /\
    (r_ret (run_remove d1 true remove_good) = TRUE ->
     r_dev (run_remove d1 true remove_good) = Some example_dev).
Proof.
  assert (Hret : r_ret (run_setup example_dev all_good) = TRUE)
    by (vm_compute; reflexivity).
  pose proof (setup_remove_round_trip script_step strerror_table example_dev
                (Some None) all_good example_dev_guards Hret)
    as (d1 & Hd & _ & Hg1 & Hback).
  split; [exact example_dev_guards |].
  split; [exact Hret |].
  exists d1. split; [exact Hd |]. split; [exact Hg1 |].
  exact (Hback true remove_good).
Defined.

Lemma setup_requests_addressed_witness :
  setup_guards_hold example_dev (Some None) /\
  In (EvSys (create_request example_dev 3) (answer 0 0))
     (r_trace (run_setup example_dev all_good)) /\
  exists r1,
    control_opened r1 (r_trace (run_setup example_dev all_good)) /\
    3%Z = rv r1 /\ (0 <= 3)%Z.
Proof.
  assert (Hin : In (EvSys (create_request example_dev 3) (answer 0 0))
                  (r_trace (run_setup example_dev all_good)))
    by (vm_compute; right; left; reflexivity).
  split; [exact example_dev_guards |].
  split; [exact Hin |].
  exact (proj1 (setup_requests_addressed script_step strerror_table
                  example_dev (Some None) all_good _ _ _ _ _
                  example_dev_guards Hin)).
Defined.

Lemma remove_requests_witness :
  remove_guards_hold active_dev (Some None) /\
  In (ioctl_cmds (r_trace (run_remove active_dev true remove_good)))
     [[]; [DM_DEV_REMOVE]].
Proof.
  split; [exact active_dev_guards |].
  exact (proj1 (remove_requests script_step strerror_table active_dev true
                  (Some None) remove_good active_dev_guards)).
Defined.

Lemma setup_descriptors_closed_witness :
  setup_guards_hold example_dev (Some None) /\
  count_events is_close (r_trace (run_setup example_dev (status_is "C")))
    = count_events opened_ok (r_trace (run_setup example_dev (status_is "C"))).
Proof.
  split; [exact example_dev_guards |].
  exact (proj1 (setup_descriptors_closed script_step strerror_table
                  example_dev (Some None) (status_is "C")
                  example_dev_guards)).
Defined.

Lemma setup_control_unavailable_witness :
  setup_guards_hold example_dev (Some None) /\
  control_opened (answer (-1) 2)
    (r_trace (run_setup example_dev control_unavailable)) /\
  (rv (answer (-1) 2) < 0)%Z /\
  r_trace (run_setup example_dev control_unavailable)
    = [EvSys control_open (answer (-1) 2)].
Proof.
  assert (Hin : control_opened (answer (-1) 2)
                  (r_trace (run_setup example_dev control_unavailable)))
    by (vm_compute; left; reflexivity).
  assert (Hneg : (rv (answer (-1) 2) < 0)%Z) by reflexivity.
  split; [exact example_dev_guards |].
  split; [exact Hin |].
  split; [exact Hneg |].
  exact (proj1 (setup_control_unavailable script_step strerror_table
                  example_dev (Some None) control_unavailable _
                  example_dev_guards Hin Hneg)).
Defined.

Lemma setup_error_iff_failure_witness :
  setup_guards_hold example_dev (Some None) /\
  (r_ret (run_setup example_dev load_fails) = FALSE <->
   exists er, r_error (run_setup example_dev load_fails) = Some (Some er)).
Proof.
  split; [exact example_dev_guards |].
  exact (proj2 (setup_error_iff_failure script_step strerror_table
                  example_dev load_fails example_dev_guards)).
Defined.

Lemma rollback_failure_is_logged_witness :
  setup_guards_hold example_dev (Some None) /\
  In (EvSys (rollback_request example_dev 3 (payload_of (answer (-1) 22)))
        (answer (-1) 16))
     (r_trace (run_setup example_dev rollback_fails)) /\
  In (EvLog LogMessage
        "Failed to remove bad dm-verity device on error: Device or resource busy")
     (r_trace (run_setup example_dev rollback_fails)).
Proof.
  assert (Hin : In (EvSys (rollback_request example_dev 3
                             (payload_of (answer (-1) 22)))
                      (answer (-1) 16))
                  (r_trace (run_setup example_dev rollback_fails)))
    by (vm_compute; do 3 right; left; reflexivity).
  pose proof (rollback_failure_is_logged script_step strerror_table
                example_dev (Some None) rollback_fails _ _ _ _
                example_dev_guards Hin) as (_ & _ & Hlog & _).
  split; [exact example_dev_guards |].
  split; [exact Hin |].
  apply Hlog. discriminate.
Defined.

Lemma setup_request_order_witness :
  setup_guards_hold example_dev (Some None) /\
  In (ioctl_cmds (r_trace (run_setup example_dev probe_open_fails)))
     setup_sequences.
Proof.
  split; [exact example_dev_guards |].
  exact (proj1 (setup_request_order script_step strerror_table example_dev
                  (Some None) probe_open_fails example_dev_guards)).
Defined.

Lemma probe_reads_upper_dev_witness :
  setup_guards_hold example_dev (Some None) /\
  In (EvSys (probe_read 4) (answer 1 0))
     (r_trace (run_setup example_dev all_good)) /\
  count_events is_read (r_trace (run_setup example_dev all_good)) = 1.
Proof.
  assert (Hin : In (EvSys (probe_read 4) (answer 1 0))
                  (r_trace (run_setup example_dev all_good)))
    by (vm_compute; do 5 right; left; reflexivity).
  pose proof (probe_reads_upper_dev script_step strerror_table example_dev
                (Some None) all_good _ _ _ example_dev_guards Hin)
    as (_ & Hcount & _).
  split; [exact example_dev_guards |].
  split; [exact Hin | exact Hcount].
Defined.


Lemma setup_again_witness :
  setup_guards_hold example_dev (Some None) /\
  exists d1,
    r_dev (run_setup example_dev probe_open_fails) = Some d1 /\
    (upper_dev d1 <> None ->
     r_ret (run_setup d1 all_good) = FALSE /\
     count_events is_syscall (r_trace (run_setup d1 all_good)) = 0).
Proof.
  pose proof (setup_again script_step strerror_table example_dev
                (Some None) probe_open_fails example_dev_guards)
    as (d1 & Hd & _ & Hset).
  split; [exact example_dev_guards |].
  exists d1. split; [exact Hd |].
  intros Hup.
  pose proof (proj2 (Hset Hup) (Some None) all_good) as (Hret & Hcount & _).
  split; [exact Hret | exact Hcount].
Defined.

Lemma request_strings_fit_witness :
  setup_guards_hold dev_long_uuid (Some None) /\
  In (EvSys (create_request dev_long_uuid 3) (answer 0 0))
     (r_trace (run_setup dev_long_uuid all_good)) /\
  String.length (g_strlcpy (letters 200) DM_UUID_LEN) < DM_UUID_LEN.
Proof.
  assert (Hg : setup_guards_hold dev_long_uuid (Some None))
    by guards_evident.
  assert (Hin : In (EvSys (create_request dev_long_uuid 3) (answer 0 0))
                  (r_trace (run_setup dev_long_uuid all_good)))
    by (vm_compute; right; left; reflexivity).
  split; [exact Hg |].
  split; [exact Hin |].
  exact (proj1 (request_strings_fit script_step strerror_table dev_long_uuid
                  (Some None) all_good _ _ _ _ _ Hg Hin)).
Defined.

Lemma setup_failure_upper_dev_witness :
  setup_guards_hold example_dev (Some None) /\
  r_ret (run_setup example_dev load_fails) = FALSE /\
  (upper_dev_after (run_setup example_dev load_fails) <> None <->
   exists fd hdr pl r,
     In (EvSys (SysIoctl fd DM_DEV_SUSPEND hdr pl) r)
        (r_trace (run_setup example_dev load_fails)) /\ rv r = 0%Z).
Proof.
  assert (Hret : r_ret (run_setup example_dev load_fails) = FALSE)
    by (vm_compute; reflexivity).
  split; [exact example_dev_guards |].
  split; [exact Hret |].
  exact (setup_failure_upper_dev script_step strerror_table example_dev
           (Some None) load_fails example_dev_guards Hret).
Defined.

(** A uuid of 200 characters reaches the kernel cut to 128. *)
Example long_uuid_truncated :
  String.length (g_strlcpy (letters 200) DM_UUID_LEN) = 128.
Proof. vm_compute. reflexivity. Qed.
